(** * Logitech BCC950 camera control: a shallow embedding of [bcc950_control.py]

    The controller object, the configuration file and the external
    [v4l2-ctl] utility are modelled by explicit state passing in a small
    state-and-exception monad: a method of [BCC950Controller] is a function
    from the state before the call to its outcome (a value or the exception
    it raises) and the state after it.

    Modelling choices:
    - a Python string is a list of code points, restricted to 0..255;
    - a Python integer is a [Z]; the interpreter's optional limit on the
      length of decimal conversions is not modelled;
    - the answer of a shell command depends on the command line only; a
      command line that holds a NUL character is not run at all
      ([subprocess.run] raises [ValueError] on it);
    - [print] is not modelled; [subprocess.run] and [time.sleep] are logged;
    - the script runs on Linux: writing a text file leaves line feeds as
      they are, reading one turns every line ending into a line feed. *)

From Stdlib Require Import ZArith List Ascii String Bool Lia.
Import ListNotations.

Local Open Scope Z_scope.

(** ** Python strings and the built-ins the script uses *)

Module Py.

Definition str := list ascii.

(** A string literal of the source. *)
Definition lit (x : string) : str := list_ascii_of_string x.

Definition code (c : ascii) : Z := Z.of_N (N_of_ascii c).

Definition LF : ascii := ascii_of_N 10.
Definition CR : ascii := ascii_of_N 13.

Definition str_eqb (a b : str) : bool :=
  if list_eq_dec ascii_dec a b then true else false.

(** [str.isspace] on one code point below 256: the characters [str.strip]
    removes. *)
Definition isspace (c : ascii) : bool :=
  let n := code c in
  ((9 <=? n) && (n <=? 13)) || ((28 <=? n) && (n <=? 32))
  || (n =? 133) || (n =? 160).

(** The white space [int()] skips around a literal: the C locale's white
    space for ASCII, and the non-ASCII Unicode spaces. *)
Definition int_isspace (c : ascii) : bool :=
  let n := code c in
  ((9 <=? n) && (n <=? 13)) || (n =? 32) || (n =? 133) || (n =? 160).

Fixpoint lstrip_by (p : ascii -> bool) (s : str) : str :=
  match s with
  | [] => []
  | c :: s' => if p c then lstrip_by p s' else s
  end.

Definition rstrip_by (p : ascii -> bool) (s : str) : str :=
  rev (lstrip_by p (rev s)).

Definition strip_by (p : ascii -> bool) (s : str) : str :=
  rstrip_by p (lstrip_by p s).

(** [s.strip()] *)
Definition strip (s : str) : str := strip_by isspace s.

(** [c in s] for a one-character [c]. *)
Definition mem (c : ascii) (s : str) : bool :=
  existsb (fun x => if ascii_dec x c then true else false) s.

Fixpoint startswith (p s : str) : bool :=
  match p, s with
  | [], _ => true
  | _ :: _, [] => false
  | a :: p', b :: s' => if ascii_dec a b then startswith p' s' else false
  end.

(** [sub in s] *)
Fixpoint contains (sub s : str) : bool :=
  if startswith sub s then true
  else match s with
       | [] => false
       | _ :: s' => contains sub s'
       end.

(** The text before and after the first [c], if [c] occurs. *)
Fixpoint partition_at (c : ascii) (s : str) : option (str * str) :=
  match s with
  | [] => None
  | x :: s' =>
      if ascii_dec x c then Some ([], s')
      else match partition_at c s' with
           | Some (a, b) => Some (x :: a, b)
           | None => None
           end
  end.

(** [s.split(c, 1)] *)
Definition split_max1 (c : ascii) (s : str) : list str :=
  match partition_at c s with
  | Some (a, b) => [a; b]
  | None => [s]
  end.

(** [s.split(c)] *)
Fixpoint split (c : ascii) (s : str) : list str :=
  match s with
  | [] => [[]]
  | x :: s' =>
      if ascii_dec x c then [] :: split c s'
      else match split c s' with
           | h :: t => (x :: h) :: t
           | [] => [[x]]
           end
  end.

(** *** [int(s)] *)

Definition digit_val (c : ascii) : option Z :=
  let n := code c in
  if (48 <=? n) && (n <=? 57) then Some (n - 48) else None.

Definition underscore : ascii := ascii_of_N 95.

(** The rest of a literal, after a digit: digits, each optionally preceded
    by a single underscore. *)
Fixpoint int_digits (acc : Z) (s : str) : option Z :=
  match s with
  | [] => Some acc
  | c :: s' =>
      match digit_val c with
      | Some d => int_digits (acc * 10 + d) s'
      | None =>
          if ascii_dec c underscore then
            match s' with
            | c2 :: s'' =>
                match digit_val c2 with
                | Some d => int_digits (acc * 10 + d) s''
                | None => None
                end
            | [] => None
            end
          else None
      end
  end.

Definition int_unsigned (s : str) : option Z :=
  match s with
  | [] => None
  | c :: s' =>
      match digit_val c with
      | Some d => int_digits d s'
      | None => None
      end
  end.

(** [int(s)]: [None] stands for the [ValueError] it raises. *)
Definition int (s : str) : option Z :=
  match strip_by int_isspace s with
  | c :: t =>
      if ascii_dec c (ascii_of_N 45) then option_map Z.opp (int_unsigned t)
      else if ascii_dec c (ascii_of_N 43) then int_unsigned t
      else int_unsigned (c :: t)
  | [] => None
  end.

(** *** [str(n)] for an integer, as an f-string formats it *)

Definition digit_char (d : Z) : ascii := ascii_of_N (Z.to_N (48 + d)).

Fixpoint digits_fuel (fuel : nat) (n : Z) (acc : str) : str :=
  match fuel with
  | O => acc
  | S f =>
      let acc' := digit_char (n mod 10) :: acc in
      if n <? 10 then acc' else digits_fuel f (n / 10) acc'
  end.

Definition str_nonneg (n : Z) : str :=
  digits_fuel (S (Z.to_nat (Z.log2 n))) n [].

Definition str_of_int (z : Z) : str :=
  if z <? 0 then ascii_of_N 45 :: str_nonneg (- z) else str_nonneg z.

(** *** Text files *)

(** Reading in text mode translates every line ending to a line feed. *)
Fixpoint universal_newlines (s : str) : str :=
  match s with
  | [] => []
  | c :: s' =>
      if ascii_dec c CR then
        LF :: match s' with
              | c2 :: s'' =>
                  if ascii_dec c2 LF then universal_newlines s''
                  else universal_newlines s'
              | [] => []
              end
      else c :: universal_newlines s'
  end.

(** Iterating over a file yields its lines, each with its line feed. *)
Fixpoint file_lines (s : str) : list str :=
  match s with
  | [] => []
  | c :: s' =>
      if ascii_dec c LF then [c] :: file_lines s'
      else match file_lines s' with
           | [] => [[c]]
           | l :: ls => (c :: l) :: ls
           end
  end.

Definition read_lines (content : str) : list str :=
  file_lines (universal_newlines content).

End Py.

(** ** The controller *)

Inductive exn : Type := ValueError | IndexError | AttributeError | TypeError.

Inductive outcome (A : Type) : Type :=
| Ok (a : A)
| Raise (e : exn).
Arguments Ok {A} a.
Arguments Raise {A} e.

(** What [run_command] returns: the captured standard output, or a
    boolean. *)
Inductive value : Type :=
| VStr (s : Py.str)
| VBool (b : bool).

(** The observable actions of a run: the shell commands [subprocess.run]
    starts and the pauses of [time.sleep], in milliseconds.  Console output
    ([print]) is not recorded. *)
Inductive event : Type :=
| Run (cmd : Py.str) (capture : bool)
| Sleep (ms : Z).

(** The fields of a [BCC950Controller], the contents of the file at
    [self.config_file] ([None] when it does not exist) and the actions
    performed so far, oldest first. *)
Record state : Type := mkState {
  device : Py.str;
  pan_speed : Z;
  tilt_speed : Z;
  zoom_step : Z;
  config_file : option Py.str;
  trace : list event
}.

(** The world outside the process: what the shell does with a command
    line ([Some] of what it prints when it exits with status zero, [None]
    when it exits with another status), and the entries of [/dev] that
    match [video*]. *)
Record env : Type := mkEnv {
  program : Py.str -> option Py.str;
  dev_entries : list Py.str
}.

(** The character with code 0.  No command line and no file name can
    hold it. *)
Definition NUL : ascii := ascii_of_N 0.

(** What a command prints when it is run and exits with status zero.
    [None]: it is not run (its text holds NUL) or it exits with another
    status, and [subprocess.run(..., check=True)] raises
    [CalledProcessError]. *)
Definition exec (E : env) (command : Py.str) : option Py.str :=
  if Py.mem NUL command then None else program E command.

(** What [glob.glob('/dev/video*')] lists: names of existing files, none of
    which holds NUL. *)
Definition glob_video (E : env) : list Py.str :=
  filter (fun p => negb (Py.mem NUL p)) (dev_entries E).

Definition M (A : Type) : Type := state -> outcome A * state.

Definition ret {A} (a : A) : M A := fun st => (Ok a, st).

Definition raise {A} (e : exn) : M A := fun st => (Raise e, st).

Definition bind {A B} (m : M A) (k : A -> M B) : M B :=
  fun st =>
    match m st with
    | (Ok a, st') => k a st'
    | (Raise e, st') => (Raise e, st')
    end.

Definition get : M state := fun st => (Ok st, st).

Definition modify (f : state -> state) : M unit := fun st => (Ok tt, f st).

Declare Scope py_scope.
Delimit Scope py_scope with py.
Notation "x <- m ;; k" := (bind m (fun x => k))
  (at level 61, m at next level, right associativity) : py_scope.
Notation "m ;; k" := (bind m (fun _ => k))
  (at level 61, right associativity) : py_scope.
Local Open Scope py_scope.

Definition set_device (v : Py.str) (st : state) : state :=
  mkState v (pan_speed st) (tilt_speed st) (zoom_step st)
          (config_file st) (trace st).
Definition set_pan_speed (v : Z) (st : state) : state :=
  mkState (device st) v (tilt_speed st) (zoom_step st)
          (config_file st) (trace st).
Definition set_tilt_speed (v : Z) (st : state) : state :=
  mkState (device st) (pan_speed st) v (zoom_step st)
          (config_file st) (trace st).
Definition set_zoom_step (v : Z) (st : state) : state :=
  mkState (device st) (pan_speed st) (tilt_speed st) v
          (config_file st) (trace st).
Definition set_config_file (v : option Py.str) (st : state) : state :=
  mkState (device st) (pan_speed st) (tilt_speed st) (zoom_step st)
          v (trace st).
Definition log (e : event) (st : state) : state :=
  mkState (device st) (pan_speed st) (tilt_speed st) (zoom_step st)
          (config_file st) (trace st ++ [e]).

Definition sleep (ms : Z) : M unit := modify (log (Sleep ms)).

(** *** Configuration file *)

(** [int(value)] inside the controller: the [ValueError] is not caught. *)
Definition int_or_raise (s : Py.str) : M Z :=
  match Py.int s with
  | Some n => ret n
  | None => raise ValueError
  end.

(** The body of the loop of [load_config], for one line of the file. *)
Definition load_line (line : Py.str) : M unit :=
  if Py.mem "="%char line then
    match Py.split_max1 "="%char (Py.strip line) with
    | [key; value] =>
        if Py.str_eqb key (Py.lit "DEVICE") then modify (set_device value)
        else if Py.str_eqb key (Py.lit "PAN_SPEED") then
          n <- int_or_raise value ;; modify (set_pan_speed n)
        else if Py.str_eqb key (Py.lit "TILT_SPEED") then
          n <- int_or_raise value ;; modify (set_tilt_speed n)
        else if Py.str_eqb key (Py.lit "ZOOM_STEP") then
          n <- int_or_raise value ;; modify (set_zoom_step n)
        else ret tt
    | _ => raise ValueError
    end
  else ret tt.

Fixpoint load_lines (lines : list Py.str) : M unit :=
  match lines with
  | [] => ret tt
  | line :: rest => load_line line ;; load_lines rest
  end.

Definition load_config : M unit :=
  st <- get ;;
  match config_file st with
  | Some content => load_lines (Py.read_lines content)
  | None => ret tt
  end.

(** The four lines [save_config] writes. *)
Definition config_text (st : state) : Py.str :=
  (Py.lit "DEVICE=" ++ device st ++ [Py.LF])
  ++ (Py.lit "PAN_SPEED=" ++ Py.str_of_int (pan_speed st) ++ [Py.LF])
  ++ (Py.lit "TILT_SPEED=" ++ Py.str_of_int (tilt_speed st) ++ [Py.LF])
  ++ (Py.lit "ZOOM_STEP=" ++ Py.str_of_int (zoom_step st) ++ [Py.LF]).

Definition save_config : M unit :=
  st <- get ;; modify (set_config_file (Some (config_text st))).

(** [device or "/dev/video0"] *)
Definition device_or_default (d : option Py.str) : Py.str :=
  match d with
  | Some (c :: s) => c :: s
  | _ => Py.lit "/dev/video0"
  end.

(** [BCC950Controller(device)], run where the configuration file holds
    [file] and [tr] has happened so far. *)
Definition init (d : option Py.str) (file : option Py.str) (tr : list event)
  : outcome unit * state :=
  load_config (mkState (device_or_default d) 1 1 10 file tr).

(** *** The pattern [BCC950.*?\n(.*?/dev/video\d+)] under [re.DOTALL]

    [re.search] as the backtracking matcher runs it: every start position
    from the left; the lazy [.*?] tries the shortest stretch first and grows
    it one character at a time; [\d+] is greedy and nothing follows it.  The
    result is the text of group 1. *)

Module Re.

Definition is_digit (c : ascii) : bool :=
  match Py.digit_val c with Some _ => true | None => false end.

Fixpoint take_digits (s : Py.str) : Py.str :=
  match s with
  | c :: s' => if is_digit c then c :: take_digits s' else []
  | [] => []
  end.

(** [/dev/video\d+] at the head of [s]: the text matched. *)
Definition dev_video_here (s : Py.str) : option Py.str :=
  let p := Py.lit "/dev/video" in
  if Py.startswith p s then
    match take_digits (skipn (List.length p) s) with
    | [] => None
    | ds => Some (p ++ ds)
    end
  else None.

(** [(.*?/dev/video\d+)] from [s] on; [skipped] is what [.*?] has taken
    so far, last character first. *)
Fixpoint group1 (skipped : Py.str) (s : Py.str) : option Py.str :=
  match dev_video_here s with
  | Some m => Some (rev skipped ++ m)
  | None =>
      match s with
      | [] => None
      | c :: s' => group1 (c :: skipped) s'
      end
  end.

(** [.*?\n(...)] from [s] on. *)
Fixpoint after_marker (s : Py.str) : option Py.str :=
  match s with
  | [] => None
  | c :: s' =>
      match (if ascii_dec c Py.LF then group1 [] s' else None) with
      | Some g => Some g
      | None => after_marker s'
      end
  end.

Definition match_here (s : Py.str) : option Py.str :=
  let p := Py.lit "BCC950" in
  if Py.startswith p s then after_marker (skipn (List.length p) s) else None.

Fixpoint search (s : Py.str) : option Py.str :=
  match match_here s with
  | Some g => Some g
  | None =>
      match s with
      | [] => None
      | _ :: s' => search s'
      end
  end.

End Re.

(** *** Commands and camera operations *)

Section Controller.

Variable E : env.

(** Only [CalledProcessError] is caught: the [ValueError] that
    [subprocess.run] raises on a command line holding NUL, before it starts
    anything, passes through. *)
Definition run_command (command : Py.str) (capture_output : bool) : M value :=
  if Py.mem NUL command then raise ValueError
  else
    modify (log (Run command capture_output)) ;;
    match exec E command with
    | Some stdout => ret (if capture_output then VStr stdout else VBool true)
    | None => ret (VBool false)
    end.

(** [f"v4l2-ctl -d {dev} -c {name}={val}"] *)
Definition set_ctrl (dev name val : Py.str) : Py.str :=
  Py.lit "v4l2-ctl -d " ++ dev ++ Py.lit " -c " ++ name ++ Py.lit "=" ++ val.

(** [f"v4l2-ctl -d {dev} --get-ctrl={name}"] *)
Definition get_ctrl (dev name : Py.str) : Py.str :=
  Py.lit "v4l2-ctl -d " ++ dev ++ Py.lit " --get-ctrl=" ++ name.

(** [f"v4l2-ctl -d {dev} --list-ctrls"] *)
Definition list_ctrls (dev : Py.str) : Py.str :=
  Py.lit "v4l2-ctl -d " ++ dev ++ Py.lit " --list-ctrls".

Definition list_devices_cmd : Py.str := Py.lit "v4l2-ctl --list-devices".

(** [sub in v]: a boolean has no [__contains__]. *)
Definition value_contains (sub : Py.str) (v : value) : M bool :=
  match v with
  | VStr s => ret (Py.contains sub s)
  | VBool _ => raise TypeError
  end.

Definition truthy (v : value) : bool :=
  match v with
  | VStr [] => false
  | VStr (_ :: _) => true
  | VBool b => b
  end.

(** The loop of [find_camera] over [glob.glob('/dev/video*')]; [false]
    when it runs to its end. *)
Fixpoint probe_devices (devs : list Py.str) : M bool :=
  match devs with
  | [] => ret false
  | dev :: rest =>
      output <- run_command (list_ctrls dev) true ;;
      has <- (if truthy output then value_contains (Py.lit "pan_speed") output
              else ret false) ;;
      if has then
        modify (set_device dev) ;; save_config ;; ret true
      else probe_devices rest
  end.

(** The search by product name at the head of [find_camera]: [true] when
    it has returned [True], [false] when control falls through. *)
Definition find_by_name (devices_output : value) : M bool :=
  has <- value_contains (Py.lit "BCC950") devices_output ;;
  if has then
    match devices_output with
    | VStr s =>
        match Re.search s with
        | Some g =>
            modify (set_device (Py.strip g)) ;; save_config ;; ret true
        | None => ret false
        end
    | VBool _ => raise TypeError
    end
  else ret false.

Definition find_camera : M bool :=
  devices_output <- run_command list_devices_cmd true ;;
  found <- find_by_name devices_output ;;
  if found then ret true else probe_devices (glob_video E).

(** One speed write, a pause of 0.1 s, and the write of speed 0. *)
Definition pulse (name val : Py.str) : M unit :=
  st <- get ;;
  run_command (set_ctrl (device st) name val) false ;;
  sleep 100 ;;
  st <- get ;;
  run_command (set_ctrl (device st) name (Py.lit "0")) false ;;
  ret tt.

Definition pan_left : M unit :=
  st <- get ;;
  pulse (Py.lit "pan_speed") (Py.lit "-" ++ Py.str_of_int (pan_speed st)).

Definition pan_right : M unit :=
  st <- get ;;
  pulse (Py.lit "pan_speed") (Py.str_of_int (pan_speed st)).

Definition tilt_up : M unit :=
  st <- get ;;
  pulse (Py.lit "tilt_speed") (Py.str_of_int (tilt_speed st)).

Definition tilt_down : M unit :=
  st <- get ;;
  pulse (Py.lit "tilt_speed") (Py.lit "-" ++ Py.str_of_int (tilt_speed st)).

(** [int(zoom_output.split('=')[1].strip())] *)
Definition read_zoom (zoom_output : value) : M Z :=
  match zoom_output with
  | VBool _ => raise AttributeError
  | VStr s =>
      match nth_error (Py.split "="%char s) 1 with
      | Some field => int_or_raise (Py.strip field)
      | None => raise IndexError
      end
  end.

Definition zoom_in : M unit :=
  st <- get ;;
  zoom_output <- run_command (get_ctrl (device st) (Py.lit "zoom_absolute")) true ;;
  current_zoom <- read_zoom zoom_output ;;
  st <- get ;;
  let new_zoom := Z.min (current_zoom + zoom_step st) 500 in
  run_command
    (set_ctrl (device st) (Py.lit "zoom_absolute") (Py.str_of_int new_zoom))
    false ;;
  ret tt.

Definition zoom_out : M unit :=
  st <- get ;;
  zoom_output <- run_command (get_ctrl (device st) (Py.lit "zoom_absolute")) true ;;
  current_zoom <- read_zoom zoom_output ;;
  st <- get ;;
  let new_zoom := Z.max (current_zoom - zoom_step st) 100 in
  run_command
    (set_ctrl (device st) (Py.lit "zoom_absolute") (Py.str_of_int new_zoom))
    false ;;
  ret tt.

(** One write of the literal [val] to control [name]. *)
Definition write_ctrl (name val : Py.str) : M unit :=
  st <- get ;;
  run_command (set_ctrl (device st) name val) false ;;
  ret tt.

Definition reset_position : M unit :=
  write_ctrl (Py.lit "pan_speed") (Py.lit "1") ;;
  sleep 100 ;;
  write_ctrl (Py.lit "pan_speed") (Py.lit "0") ;;
  sleep 100 ;;
  write_ctrl (Py.lit "pan_speed") (Py.lit "-1") ;;
  sleep 100 ;;
  write_ctrl (Py.lit "pan_speed") (Py.lit "0") ;;
  write_ctrl (Py.lit "tilt_speed") (Py.lit "1") ;;
  sleep 100 ;;
  write_ctrl (Py.lit "tilt_speed") (Py.lit "0") ;;
  sleep 100 ;;
  write_ctrl (Py.lit "tilt_speed") (Py.lit "-1") ;;
  sleep 100 ;;
  write_ctrl (Py.lit "tilt_speed") (Py.lit "0") ;;
  write_ctrl (Py.lit "zoom_absolute") (Py.lit "100").

Definition list_devices : M unit :=
  run_command list_devices_cmd false ;; ret tt.

Definition show_info : M unit :=
  st <- get ;;
  run_command (Py.lit "v4l2-ctl -d " ++ device st ++ Py.lit " --all") false ;;
  ret tt.

(** *** The command line *)

(** The namespace [parse_args] returns. *)
Record args : Type := mkArgs {
  arg_setup : bool;
  arg_device : option Py.str;
  arg_list : bool;
  arg_pan_left : bool;
  arg_pan_right : bool;
  arg_tilt_up : bool;
  arg_tilt_down : bool;
  arg_zoom_in : bool;
  arg_zoom_out : bool;
  arg_reset : bool;
  arg_demo : bool;
  arg_info : bool
}.

(** [setup] and [run_demo] are not embedded: [main] takes them as they
    are. *)
Variable setup : M bool.
Variable run_demo : M bool.

(** [main()] after argument parsing, run where the configuration file
    holds [file].  An exception it returns is one nothing has caught: the
    interpreter prints the traceback and the process exits with status 1. *)
Definition main (a : args) (file : option Py.str) : outcome unit * state :=
  match init (arg_device a) file [] with
  | (Raise e, st) => (Raise e, st)
  | (Ok _, st) =>
      (if arg_setup a then setup ;; ret tt
       else if arg_list a then list_devices
       else if arg_pan_left a then pan_left
       else if arg_pan_right a then pan_right
       else if arg_tilt_up a then tilt_up
       else if arg_tilt_down a then tilt_down
       else if arg_zoom_in a then zoom_in
       else if arg_zoom_out a then zoom_out
       else if arg_reset a then reset_position
       else if arg_demo a then run_demo ;; ret tt
       else if arg_info a then show_info
       else ret tt) st
  end.

End Controller.

(** ** Vocabulary of the statements *)

Module Spec.
Import Py.

(** The value of a run of decimal digits read from the left. *)
Definition dec_step (acc : Z) (c : ascii) : Z :=
  match digit_val c with Some d => acc * 10 + d | None => acc end.

Definition all_digits (s : str) : Prop :=
  Forall (fun c => digit_val c <> None) s.

(** The last character of [s] is white space. *)
Definition ends_in_space (s : str) : bool :=
  match rev s with
  | c :: _ => isspace c
  | [] => false
  end.

(** [s] holds a line feed or a carriage return. *)
Definition has_line_break (s : str) : bool := mem LF s || mem CR s.

(** The key and the value [load_config] reads from a line, if it reads
    any. *)
Definition entry (line : str) : option (str * str) :=
  if mem "="%char line then
    match split_max1 "="%char (strip line) with
    | [key; value] => Some (key, value)
    | _ => None
    end
  else None.

Definition is_int_key (key : str) : bool :=
  str_eqb key (lit "PAN_SPEED") || str_eqb key (lit "TILT_SPEED")
  || str_eqb key (lit "ZOOM_STEP").

(** A [PAN_SPEED], [TILT_SPEED] or [ZOOM_STEP] line whose value [int()]
    rejects. *)
Definition malformed (line : str) : bool :=
  match entry line with
  | Some (key, value) =>
      is_int_key key && match int value with Some _ => false | None => true end
  | None => false
  end.

Definition well_formed (lines : list str) : bool :=
  forallb (fun l => negb (malformed l)) lines.

(** The value of the last line of [lines] that carries [key]. *)
Fixpoint last_value (key : str) (lines : list str) : option str :=
  match lines with
  | [] => None
  | l :: ls =>
      match last_value key ls with
      | Some v => Some v
      | None =>
          match entry l with
          | Some (k, v) => if str_eqb k key then Some v else None
          | None => None
          end
      end
  end.

(** A string field after a load: the value of the last line with its
    key, or what it held before when no line has the key. *)
Definition str_field (before after : str) (last : option str) : Prop :=
  match last with
  | Some v => after = v
  | None => after = before
  end.

(** An integer field after a load: what [int()] makes of the value of
    the last line with its key, or what it held before. *)
Definition int_field (before after : Z) (last : option str) : Prop :=
  match last with
  | Some v => int v = Some after
  | None => after = before
  end.

(** What a line that raises nothing does to the controller. *)
Definition apply_line (line : str) (st : state) : state :=
  match entry line with
  | Some (key, value) =>
      if str_eqb key (lit "DEVICE") then set_device value st
      else if str_eqb key (lit "PAN_SPEED") then
        match int value with Some n => set_pan_speed n st | None => st end
      else if str_eqb key (lit "TILT_SPEED") then
        match int value with Some n => set_tilt_speed n st | None => st end
      else if str_eqb key (lit "ZOOM_STEP") then
        match int value with Some n => set_zoom_step n st | None => st end
      else st
  | None => st
  end.

Definition apply_lines (lines : list str) (st : state) : state :=
  fold_left (fun s l => apply_line l s) lines st.

(** The lines of the file [save_config] writes. *)
Definition saved_lines (st : state) : list str :=
  [lit "DEVICE=" ++ device st ++ [LF];
   lit "PAN_SPEED=" ++ str_of_int (pan_speed st) ++ [LF];
   lit "TILT_SPEED=" ++ str_of_int (tilt_speed st) ++ [LF];
   lit "ZOOM_STEP=" ++ str_of_int (zoom_step st) ++ [LF]].

(** The exception [int(zoom_output.split('=')[1].strip())] raises on the
    text [reply], if it raises one. *)
Definition read_error (reply : str) : option exn :=
  match nth_error (split "="%char reply) 1 with
  | None => Some IndexError
  | Some field =>
      match int (strip field) with
      | None => Some ValueError
      | Some _ => None
      end
  end.

(** The control listing of [dev] is not empty and holds [pan_speed]. *)
Definition pan_capable (E : env) (dev : str) : bool :=
  match exec E (list_ctrls dev) with
  | Some (c :: s) => contains (lit "pan_speed") (c :: s)
  | _ => false
  end.

(** The state [st] with [evs] appended to what has happened. *)
Definition after (evs : list event) (st : state) : state :=
  mkState (device st) (pan_speed st) (tilt_speed st) (zoom_step st)
          (config_file st) (trace st ++ evs).

(** The two commands a zoom step runs: the read, then the write of [v]. *)
Definition zoom_events (st : state) (v : Z) : list event :=
  [Run (get_ctrl (device st) (lit "zoom_absolute")) true;
   Run (set_ctrl (device st) (lit "zoom_absolute") (str_of_int v)) false].

(** What [reset_position] does on device [dev]. *)
Definition reset_events (dev : str) : list event :=
  [Run (set_ctrl dev (lit "pan_speed") (lit "1")) false; Sleep 100;
   Run (set_ctrl dev (lit "pan_speed") (lit "0")) false; Sleep 100;
   Run (set_ctrl dev (lit "pan_speed") (lit "-1")) false; Sleep 100;
   Run (set_ctrl dev (lit "pan_speed") (lit "0")) false;
   Run (set_ctrl dev (lit "tilt_speed") (lit "1")) false; Sleep 100;
   Run (set_ctrl dev (lit "tilt_speed") (lit "0")) false; Sleep 100;
   Run (set_ctrl dev (lit "tilt_speed") (lit "-1")) false; Sleep 100;
   Run (set_ctrl dev (lit "tilt_speed") (lit "0")) false;
   Run (set_ctrl dev (lit "zoom_absolute") (lit "100")) false].

(** The shell commands among [evs], in order. *)
Fixpoint commands (evs : list event) : list str :=
  match evs with
  | [] => []
  | Run cmd _ :: rest => cmd :: commands rest
  | Sleep _ :: rest => commands rest
  end.

(** No device of [devs] has a [pan_speed] control. *)
Definition none_capable (E : env) (devs : list str) : bool :=
  forallb (fun d => negb (pan_capable E d)) devs.

(** The search by product name finds nothing in the listing [out]: the
    name is not there, or the pattern does not match. *)
Definition name_search_fails (out : str) : bool :=
  negb (contains (lit "BCC950") out)
  || match Re.search out with Some _ => false | None => true end.

(** The controller after a probe has selected [dev]: [dev] as device, the
    file rewritten from the fields, and [evs] added to the log. *)
Definition selected (dev : str) (evs : list event) (st : state) : state :=
  mkState dev (pan_speed st) (tilt_speed st) (zoom_step st)
          (Some (config_text (set_device dev st))) (trace st ++ evs).

(** The probes of [devs], one after the other. *)
Definition probes (devs : list str) : list event :=
  map (fun d => Run (list_ctrls d) true) devs.

(** The flags [main] tests before [--zoom-in] are all off. *)
Definition reaches_zoom (a : args) : bool :=
  negb (arg_setup a) && negb (arg_list a) && negb (arg_pan_left a)
  && negb (arg_pan_right a) && negb (arg_tilt_up a) && negb (arg_tilt_down a).

End Spec.

(** ** Sample files and worlds *)

Module Sample.
Import Py.

(** A file with two speeds, the second one not a number. *)
Definition half_good_file : str :=
  lit "PAN_SPEED=5" ++ [LF] ++ lit "TILT_SPEED=fast" ++ [LF]
  ++ lit "ZOOM_STEP=20" ++ [LF].

(** A file that sets the device and one speed. *)
Definition partial_file : str :=
  lit "DEVICE=/dev/video4" ++ [LF] ++ lit "comment" ++ [LF]
  ++ lit "PAN_SPEED= 3" ++ [LF].

Definition fresh (file : option str) : state :=
  mkState (lit "/dev/video0") 1 1 10 file [].

(** A world where every command prints [reply]. *)
Definition always (reply : str) : env := mkEnv (fun _ => Some reply) [].

(** A world with three video devices, of which only [/dev/video3] lists a
    [pan_speed] control, and no product name in the device listing. *)
Definition three_devices : env :=
  mkEnv (fun cmd =>
           if str_eqb cmd list_devices_cmd
           then Some (lit "HD Webcam (usb-0000:00:14.0-1):")
           else if str_eqb cmd (list_ctrls (lit "/dev/video3"))
           then Some (lit "pan_speed 0x009a0920 (int) : min=-1 max=1")
           else if str_eqb cmd (list_ctrls (lit "/dev/video1"))
           then None
           else Some (lit "brightness 0x00980900 (int) : min=0 max=255"))
        [lit "/dev/video0"; lit "/dev/video1"; lit "/dev/video3";
         lit "/dev/video2"].

(** [--zoom-in] alone on the command line. *)
Definition zoom_in_args : args :=
  mkArgs false None false false false false false true false false false false.

End Sample.


(** ** The rest of the script: set-up, camera test and demonstration *)

(** Further built-ins. *)
Module PyMore.
Import Py.

(** [c.lower()] on one code point below 256. *)
Definition lower_char (c : ascii) : ascii :=
  let n := code c in
  if ((65 <=? n) && (n <=? 90))
     || ((192 <=? n) && (n <=? 222) && negb (n =? 215))
  then ascii_of_N (Z.to_N (n + 32))
  else c.

(** [s.lower()] *)
Definition lower (s : str) : str := map lower_char s.

(** [s.strip(q)] for the one-character string [q] that holds the double
    quote. *)
Definition strip_quotes (s : str) : str :=
  strip_by (fun c => if ascii_dec c (ascii_of_N 34) then true else false) s.

(** The number of elements of [range(start, stop, step)]. *)
Definition range_len (start stop step : Z) : Z :=
  if 0 <? step then
    if start <? stop then (stop - start - 1) / step + 1 else 0
  else if step <? 0 then
    if stop <? start then (start - stop - 1) / (- step) + 1 else 0
  else 0.

(** [range(start, stop, step)] for a step other than zero. *)
Definition range (start stop step : Z) : list Z :=
  map (fun i => start + Z.of_nat i * step)
      (seq 0 (Z.to_nat (range_len start stop step))).

(** [x in l] for a list of strings. *)
Definition str_in (x : str) (l : list str) : bool :=
  existsb (str_eqb x) l.

End PyMore.

(** What else of the machine the script looks at: the text of
    [/etc/os-release] ([None] when the file does not exist), what
    [platform.system()] returns, and which paths are on disk. *)
Record host : Type := mkHost {
  os_release : option Py.str;
  platform_system : Py.str;
  on_disk : Py.str -> bool
}.

(** [os.path.exists(p)]: [False] on a path that holds NUL, which cannot
    name a file. *)
Definition path_exists (H : host) (p : Py.str) : bool :=
  if Py.mem NUL p then false else on_disk H p.

Section Setup.

Variable E : env.
Variable H : host.

Local Open Scope py_scope.

(** The loop of [detect_os] over the lines of [/etc/os-release]: the value
    it returns, or [None] when it runs to its end. *)
Fixpoint os_release_id (lines : list Py.str) : M (option Py.str) :=
  match lines with
  | [] => ret None
  | line :: rest =>
      if Py.startswith (Py.lit "ID=") line then
        match nth_error (Py.split "="%char line) 1 with
        | Some field => ret (Some (PyMore.strip_quotes (Py.strip field)))
        | None => raise IndexError
        end
      else os_release_id rest
  end.

Definition detect_os : M Py.str :=
  found <- match os_release H with
           | Some content => os_release_id (Py.read_lines content)
           | None => ret None
           end ;;
  match found with
  | Some name => ret name
  | None => ret (PyMore.lower (platform_system H))
  end.

(** The command [install_prerequisites] picks for [os_name], if the
    system is one it knows. *)
Definition install_command (os_name : Py.str) : option Py.str :=
  if PyMore.str_in os_name [Py.lit "ubuntu"; Py.lit "debian"] then
    Some (Py.lit "sudo apt-get update && sudo apt-get install -y v4l-utils")
  else if Py.str_eqb os_name (Py.lit "fedora") then
    Some (Py.lit "sudo dnf install -y v4l-utils")
  else if PyMore.str_in os_name [Py.lit "centos"; Py.lit "rhel"] then
    Some (Py.lit "sudo yum install -y v4l-utils")
  else if Py.str_eqb os_name (Py.lit "arch") then
    Some (Py.lit "sudo pacman -Sy v4l-utils")
  else None.

Definition install_prerequisites : M value :=
  os_name <- detect_os ;;
  match install_command os_name with
  | Some cmd => run_command E cmd false
  | None => ret (VBool false)
  end.

Definition test_camera : M bool :=
  st <- get ;;
  if negb (path_exists H (device st)) then ret false
  else
    controls_output <- run_command E (list_ctrls (device st)) true ;;
    has_pan <- value_contains (Py.lit "pan_speed") controls_output ;;
    has_tilt <- value_contains (Py.lit "tilt_speed") controls_output ;;
    has_zoom <- value_contains (Py.lit "zoom_absolute") controls_output ;;
    ret (has_pan && has_tilt && has_zoom).

Definition which_cmd : Py.str := Py.lit "which v4l2-ctl".

Definition setup : M bool :=
  present <- run_command E which_cmd true ;;
  ready <- (if negb (truthy present) then
              installed <- install_prerequisites ;;
              ret (truthy installed)
            else ret true) ;;
  if ready then
    find_camera E ;;
    test_camera ;;
    ret true
  else ret false.

(** One write of [f"{name}={prefix}{n}"], with the number [n] read from
    the controller when the command is built. *)
Definition write_speed (name prefix : Py.str) (field : state -> Z) : M unit :=
  st <- get ;;
  run_command E
    (set_ctrl (device st) name (prefix ++ Py.str_of_int (field st))) false ;;
  ret tt.

(** [for zoom in zs: write zoom_absolute=zoom; sleep] *)
Fixpoint zoom_ramp (zs : list Z) (ms : Z) : M unit :=
  match zs with
  | [] => ret tt
  | zoom :: rest =>
      write_ctrl E (Py.lit "zoom_absolute") (Py.str_of_int zoom) ;;
      sleep ms ;;
      zoom_ramp rest ms
  end.

Definition pan_name : Py.str := Py.lit "pan_speed".
Definition tilt_name : Py.str := Py.lit "tilt_speed".
Definition minus : Py.str := Py.lit "-".
Definition zero : Py.str := Py.lit "0".

Definition run_demo : M bool :=
  st <- get ;;
  if negb (path_exists H (device st)) then ret false
  else
    sleep 3000 ;;
    write_ctrl E (Py.lit "zoom_absolute") (Py.lit "100") ;;
    sleep 1000 ;;
    (* pan left while zooming in *)
    write_speed pan_name minus pan_speed ;;
    zoom_ramp (PyMore.range 100 301 20) 300 ;;
    write_ctrl E pan_name zero ;;
    sleep 1000 ;;
    (* tilt up *)
    write_speed tilt_name [] tilt_speed ;;
    sleep 3000 ;;
    write_ctrl E tilt_name zero ;;
    sleep 1000 ;;
    (* pan right while zooming out *)
    write_speed pan_name [] pan_speed ;;
    zoom_ramp (PyMore.range 300 99 (-20)) 300 ;;
    write_ctrl E pan_name zero ;;
    sleep 1000 ;;
    (* tilt down *)
    write_speed tilt_name minus tilt_speed ;;
    sleep 3000 ;;
    write_ctrl E tilt_name zero ;;
    sleep 1000 ;;
    (* the full zoom range, in and out *)
    zoom_ramp (PyMore.range 100 501 20) 100 ;;
    sleep 2000 ;;
    zoom_ramp (PyMore.range 500 99 (-20)) 100 ;;
    (* diagonal up-right *)
    write_speed pan_name [] pan_speed ;;
    write_speed tilt_name [] tilt_speed ;;
    sleep 2000 ;;
    write_ctrl E pan_name zero ;;
    write_ctrl E tilt_name zero ;;
    sleep 1000 ;;
    (* diagonal down-left *)
    write_speed pan_name minus pan_speed ;;
    write_speed tilt_name minus tilt_speed ;;
    sleep 2000 ;;
    write_ctrl E pan_name zero ;;
    write_ctrl E tilt_name zero ;;
    sleep 1000 ;;
    (* diagonal up-left *)
    write_speed pan_name minus pan_speed ;;
    write_speed tilt_name [] tilt_speed ;;
    sleep 2000 ;;
    write_ctrl E pan_name zero ;;
    write_ctrl E tilt_name zero ;;
    sleep 1000 ;;
    (* diagonal down-right *)
    write_speed pan_name [] pan_speed ;;
    write_speed tilt_name minus tilt_speed ;;
    sleep 2000 ;;
    write_ctrl E pan_name zero ;;
    write_ctrl E tilt_name zero ;;
    reset_position E ;;
    ret true.

(** [main()] with the [setup] and [run_demo] of the script. *)
Definition run_main (a : args) (file : option Py.str) : outcome unit * state :=
  main E setup run_demo a file.

End Setup.

(** ** Vocabulary of the further statements *)

Module Props.
Import Py PyMore Spec.

(** [m] changes nothing of the controller and of the configuration file:
    all it does is add to the log. *)
Definition logs_only {A} (m : M A) : Prop :=
  forall st, exists evs, snd (m st) = after evs st.


(** One step of a manoeuvre: a control write or a pause. *)
Inductive action : Type :=
| Write (name val : str)
| Hold (ms : Z).

Definition action_event (dev : str) (a : action) : event :=
  match a with
  | Write name val => Run (set_ctrl dev name val) false
  | Hold ms => Sleep ms
  end.

(** A zoom write for each of [zs], each followed by a pause of [ms]. *)
Definition ramp_actions (zs : list Z) (ms : Z) : list action :=
  flat_map (fun z => [Write (lit "zoom_absolute") (str_of_int z); Hold ms]) zs.

Definition reset_actions : list action :=
  [Write (lit "pan_speed") (lit "1"); Hold 100;
   Write (lit "pan_speed") (lit "0"); Hold 100;
   Write (lit "pan_speed") (lit "-1"); Hold 100;
   Write (lit "pan_speed") (lit "0");
   Write (lit "tilt_speed") (lit "1"); Hold 100;
   Write (lit "tilt_speed") (lit "0"); Hold 100;
   Write (lit "tilt_speed") (lit "-1"); Hold 100;
   Write (lit "tilt_speed") (lit "0");
   Write (lit "zoom_absolute") (lit "100")].

(** The demonstration before its final reset, for pan speed [p] and tilt
    speed [t]. *)
Definition demo_body (p t : Z) : list action :=
  let pan v := Write (lit "pan_speed") v in
  let tilt v := Write (lit "tilt_speed") v in
  let pos n := str_of_int n in
  let neg n := lit "-" ++ str_of_int n in
  [Hold 3000; Write (lit "zoom_absolute") (lit "100"); Hold 1000]
  ++ [pan (neg p)] ++ ramp_actions (range 100 301 20) 300
  ++ [pan (lit "0"); Hold 1000]
  ++ [tilt (pos t); Hold 3000; tilt (lit "0"); Hold 1000]
  ++ [pan (pos p)] ++ ramp_actions (range 300 99 (-20)) 300
  ++ [pan (lit "0"); Hold 1000]
  ++ [tilt (neg t); Hold 3000; tilt (lit "0"); Hold 1000]
  ++ ramp_actions (range 100 501 20) 100 ++ [Hold 2000]
  ++ ramp_actions (range 500 99 (-20)) 100
  ++ [pan (pos p); tilt (pos t); Hold 2000;
      pan (lit "0"); tilt (lit "0"); Hold 1000]
  ++ [pan (neg p); tilt (neg t); Hold 2000;
      pan (lit "0"); tilt (lit "0"); Hold 1000]
  ++ [pan (neg p); tilt (pos t); Hold 2000;
      pan (lit "0"); tilt (lit "0"); Hold 1000]
  ++ [pan (pos p); tilt (neg t); Hold 2000;
      pan (lit "0"); tilt (lit "0")].

Definition demo_actions (p t : Z) : list action :=
  demo_body p t ++ reset_actions.

(** No line of [lines] starts with [ID=]. *)
Definition no_id_line (lines : list str) : bool :=
  forallb (fun l => negb (startswith (lit "ID=") l)) lines.

(** The four keys [load_config] knows. *)
Definition known_keys : list str :=
  [lit "DEVICE"; lit "PAN_SPEED"; lit "TILT_SPEED"; lit "ZOOM_STEP"].

End Props.

(** ** Further sample machines and files *)

Module SampleHosts.
Import Py.

Definition quote : ascii := ascii_of_N 34.

(** A machine without [/etc/os-release] and without video devices. *)
Definition mac_host : host :=
  mkHost None (lit "Darwin") (fun _ => false).

(** An [/etc/os-release] whose ID line is quoted and comes third. *)
Definition ubuntu_release : str :=
  lit "NAME=Ubuntu" ++ [LF] ++ lit "ID_LIKE=debian" ++ [LF]
  ++ lit "ID=" ++ [quote] ++ lit "ubuntu" ++ [quote; LF]
  ++ lit "VERSION_ID=22.04" ++ [LF].

Definition ubuntu_host : host :=
  mkHost (Some ubuntu_release) (lit "Linux") (fun _ => true).

(** An [/etc/os-release] whose first ID line comes third, is quoted and
    holds a second [=]; another ID line follows. *)
Definition debian_release : str :=
  lit "NAME=Debian" ++ [LF] ++ lit "ID_LIKE=ubuntu" ++ [LF]
  ++ lit "ID=" ++ [quote] ++ lit "debian" ++ [quote] ++ lit "=12" ++ [LF]
  ++ lit "ID=other" ++ [LF].

Definition debian_host : host :=
  mkHost (Some debian_release) (lit "Linux") (fun _ => true).

(** A world where [v4l2-ctl] is installed and fails on every call. *)
Definition failing_utility : env :=
  mkEnv (fun cmd => if str_eqb cmd which_cmd
                    then Some (lit "/usr/bin/v4l2-ctl") else None)
        [].

(** A world with two video devices without pan control; the control
    listing of the second fails. *)
Definition plain_webcams : env :=
  mkEnv (fun cmd => if str_eqb cmd (list_ctrls (lit "/dev/video1"))
                    then None
                    else Some (lit "brightness 0x00980900 (int) : min=0 max=255"))
        [lit "/dev/video0"; lit "/dev/video1"].

(** A file none of whose lines carries one of the four keys. *)
Definition other_keys_file : str :=
  lit "# camera settings" ++ [LF] ++ lit "device=/dev/video1" ++ [LF]
  ++ lit "PAN_SPEED =4" ++ [LF].

(** [--pan-left --zoom-in --reset] on the command line. *)
Definition several_flags : args :=
  mkArgs false None false true false false false true false true false false.

End SampleHosts.

Example int_ex1 : Py.int (Py.lit " 1_0 ") = Some 10.
Proof. reflexivity. Qed.
Example int_ex2 : Py.int (Py.lit "-007") = Some (-7).
Proof. reflexivity. Qed.
Example int_ex3 : Py.int (Py.lit "1__0") = None.
Proof. reflexivity. Qed.
Example str_ex1 : Py.str_of_int (-1203) = Py.lit "-1203".
Proof. reflexivity. Qed.
Example str_ex2 : Py.str_of_int 0 = Py.lit "0".
Proof. reflexivity. Qed.
Example lines_ex : Py.read_lines (Py.lit "a
b") = [Py.lit "a
"; Py.lit "b"].
Proof. reflexivity. Qed.
Example split_ex : Py.split_max1 "="%char (Py.lit "a=b=c") = [Py.lit "a"; Py.lit "b=c"].
Proof. reflexivity. Qed.

Example search_ex1 :
  Re.search (Py.lit "Logitech BCC950 ConferenceCam (usb-1):"
             ++ [Py.LF] ++ Py.lit " /dev/video2" ++ [Py.LF]
             ++ Py.lit " /dev/video3" ++ [Py.LF])
  = Some (Py.lit " /dev/video2").
Proof. reflexivity. Qed.
Example search_ex2 :
  Re.search (Py.lit "BCC950 /dev/video1" ++ [Py.LF] ++ Py.lit "foo" ++ [Py.LF]
             ++ Py.lit "/dev/video12x")
  = Some (Py.lit "foo" ++ [Py.LF] ++ Py.lit "/dev/video12").
Proof. reflexivity. Qed.
Example search_ex3 : Re.search (Py.lit "BCC950 no newline /dev/video1") = None.
Proof. reflexivity. Qed.

Arguments Py.lit : simpl never.

(** ** Facts about the string built-ins *)

Module PyFacts.
Import Py Spec.

Lemma str_eqb_eq a b : str_eqb a b = true <-> a = b.
Proof.
  unfold str_eqb. destruct (list_eq_dec ascii_dec a b); split; congruence.
Qed.

Lemma str_eqb_refl a : str_eqb a a = true.
Proof. now apply str_eqb_eq. Qed.

Lemma code_digit_char d : 0 <= d < 10 -> code (digit_char d) = 48 + d.
Proof.
  intros H. unfold code, digit_char.
  rewrite N_ascii_embedding by lia. lia.
Qed.

Lemma digit_val_char d : 0 <= d < 10 -> digit_val (digit_char d) = Some d.
Proof.
  intros H. unfold digit_val. rewrite code_digit_char by assumption.
  replace ((48 <=? 48 + d) && (48 + d <=? 57)) with true.
  - f_equal. lia.
  - symmetry. apply andb_true_iff. split; apply Z.leb_le; lia.
Qed.

Lemma int_digits_all_digits s : all_digits s ->
  forall acc, int_digits acc s = Some (fold_left dec_step s acc).
Proof.
  induction 1 as [|c s Hc _ IH]; intros acc; simpl.
  - reflexivity.
  - unfold dec_step at 2. destruct (digit_val c); [apply IH | congruence].
Qed.

Lemma digits_fuel_all_digits f : forall n acc,
  0 <= n -> all_digits acc -> all_digits (digits_fuel f n acc).
Proof.
  induction f as [|f IH]; intros n acc Hn Hacc; simpl.
  - assumption.
  - assert (Hd : all_digits (digit_char (n mod 10) :: acc)).
    { constructor; [|assumption].
      rewrite digit_val_char by (apply Z.mod_pos_bound; lia). discriminate. }
    destruct (n <? 10); [assumption|].
    apply IH; [apply Z.div_pos; lia | assumption].
Qed.

Lemma digits_fuel_value f : forall n acc,
  0 <= n < 2 ^ Z.of_nat (S f) ->
  fold_left dec_step (digits_fuel (S f) n acc) 0 = fold_left dec_step acc n.
Proof.
  induction f as [|f IH]; intros n acc Hn;
    assert (Hm : 0 <= n mod 10 < 10) by (apply Z.mod_pos_bound; lia).
  - assert (Hlt : n < 10) by (simpl in Hn; lia).
    simpl. apply Z.ltb_lt in Hlt. rewrite Hlt.
    simpl. unfold dec_step at 2. rewrite digit_val_char by assumption.
    apply Z.ltb_lt in Hlt. rewrite Z.mod_small by lia. reflexivity.
  - change (digits_fuel (S (S f)) n acc)
      with (if n <? 10 then digit_char (n mod 10) :: acc
            else digits_fuel (S f) (n / 10) (digit_char (n mod 10) :: acc)).
    destruct (Z.ltb_spec n 10) as [Hlt|Hge].
    + simpl. unfold dec_step at 2. rewrite digit_val_char by assumption.
      rewrite Z.mod_small by lia. reflexivity.
    + rewrite IH.
      * simpl. unfold dec_step at 2. rewrite digit_val_char by assumption.
        f_equal. pose proof (Z.div_mod n 10). lia.
      * rewrite (Nat2Z.inj_succ (S f)), Z.pow_succ_r in Hn by lia.
        split; [apply Z.div_pos; lia|].
        apply Z.div_lt_upper_bound; lia.
Qed.

Lemma digits_fuel_nonempty f n acc : digits_fuel (S f) n acc <> [].
Proof.
  revert n acc. induction f as [|f IH]; intros n acc; simpl.
  - destruct (n <? 10); discriminate.
  - destruct (n <? 10); [discriminate|]. apply IH.
Qed.

Lemma log2_fuel n : 0 <= n -> n < 2 ^ Z.of_nat (S (Z.to_nat (Z.log2 n))).
Proof.
  intros Hn. rewrite Nat2Z.inj_succ, Z2Nat.id by apply Z.log2_nonneg.
  destruct (Z.eq_dec n 0) as [->|Hz]; [reflexivity|].
  apply Z.log2_spec. lia.
Qed.

Lemma str_nonneg_all_digits n : 0 <= n -> all_digits (str_nonneg n).
Proof.
  intros Hn. apply digits_fuel_all_digits; [assumption | constructor].
Qed.

Lemma str_nonneg_nonempty n : str_nonneg n <> [].
Proof. apply digits_fuel_nonempty. Qed.

Lemma int_unsigned_all_digits s : s <> [] -> all_digits s ->
  int_unsigned s = Some (fold_left dec_step s 0).
Proof.
  intros Hne Hs. destruct s as [|c s]; [congruence|].
  inversion Hs as [|? ? Hc Hs']; subst.
  simpl. unfold dec_step at 2.
  destruct (digit_val c) as [d|]; [|congruence].
  now rewrite int_digits_all_digits.
Qed.

Lemma int_unsigned_str_nonneg n : 0 <= n -> int_unsigned (str_nonneg n) = Some n.
Proof.
  intros Hn.
  rewrite int_unsigned_all_digits
    by auto using str_nonneg_nonempty, str_nonneg_all_digits.
  unfold str_nonneg.
  rewrite digits_fuel_value; [reflexivity|].
  split; [assumption | now apply log2_fuel].
Qed.

Lemma digit_not_space c : digit_val c <> None ->
  isspace c = false /\ int_isspace c = false.
Proof.
  unfold digit_val, isspace, int_isspace. intros H.
  destruct ((48 <=? code c) && (code c <=? 57)) eqn:Hd; [|congruence].
  apply andb_true_iff in Hd. destruct Hd as [H1 H2].
  apply Z.leb_le in H1, H2.
  split;
    repeat match goal with
           | |- _ || _ = false => apply orb_false_iff; split
           | |- _ && _ = false => apply andb_false_iff
           end;
    try (apply Z.eqb_neq; lia);
    try (right; apply Z.leb_gt; lia).
Qed.

Lemma lstrip_by_head p c s : p c = false -> lstrip_by p (c :: s) = c :: s.
Proof. intros H. simpl. now rewrite H. Qed.

Lemma rstrip_by_last p s c : p c = false -> rstrip_by p (s ++ [c]) = s ++ [c].
Proof.
  intros H. unfold rstrip_by. rewrite rev_app_distr. simpl. rewrite H.
  change (rev (c :: rev s)) with (rev (rev s) ++ [c]).
  now rewrite rev_involutive.
Qed.

Lemma rstrip_by_drop p s c : p c = true -> rstrip_by p (s ++ [c]) = rstrip_by p s.
Proof.
  intros H. unfold rstrip_by. rewrite rev_app_distr. simpl. now rewrite H.
Qed.

Lemma rstrip_by_nil p : rstrip_by p [] = [].
Proof. reflexivity. Qed.

(** A string that neither starts nor ends with white space is its own
    [strip]. *)
Lemma strip_by_fixed p c s :
  p c = false ->
  (forall t d, c :: s = t ++ [d] -> p d = false) ->
  strip_by p (c :: s) = c :: s.
Proof.
  intros Hc Hlast. unfold strip_by. rewrite lstrip_by_head by assumption.
  destruct (exists_last (l := c :: s)) as (t & d & Heq); [discriminate|].
  rewrite Heq. apply rstrip_by_last. eapply Hlast. eassumption.
Qed.

Lemma all_digits_last s t d : all_digits s -> s = t ++ [d] -> digit_val d <> None.
Proof.
  intros Hs ->. apply Forall_app in Hs. destruct Hs as [_ Hd].
  now inversion Hd.
Qed.

Lemma int_strip_digits s : s <> [] -> all_digits s ->
  strip_by int_isspace s = s.
Proof.
  intros Hne Hs. destruct s as [|c s]; [congruence|].
  apply strip_by_fixed.
  - inversion Hs; subst. now apply digit_not_space.
  - intros t d Heq. apply digit_not_space. eapply all_digits_last; eassumption.
Qed.

(** [int(str(z)) == z] *)
Lemma int_str_of_int z : int (str_of_int z) = Some z.
Proof.
  unfold str_of_int. destruct (Z.ltb_spec z 0) as [Hneg|Hpos].
  - assert (Hd : all_digits (str_nonneg (- z)))
      by (apply str_nonneg_all_digits; lia).
    unfold int. rewrite strip_by_fixed.
    + destruct (ascii_dec (ascii_of_N 45) (ascii_of_N 45)); [|congruence].
      rewrite int_unsigned_str_nonneg by lia. simpl. f_equal. lia.
    + reflexivity.
    + intros t d Heq.
      destruct t as [|x t]; simpl in Heq.
      * exfalso. injection Heq as _ Hnil.
        now apply str_nonneg_nonempty in Hnil.
      * injection Heq as _ Heq. apply digit_not_space.
        eapply all_digits_last; eassumption.
  - assert (Hd : all_digits (str_nonneg z))
      by (apply str_nonneg_all_digits; lia).
    pose proof (str_nonneg_nonempty z) as Hne.
    unfold int. rewrite int_strip_digits by assumption.
    pose proof (int_unsigned_str_nonneg z Hpos) as Hu.
    destruct (str_nonneg z) as [|c t]; [congruence|].
    inversion Hd as [|? ? Hc _]; subst.
    destruct (ascii_dec c (ascii_of_N 45)) as [->|_];
      [exfalso; apply Hc; reflexivity|].
    destruct (ascii_dec c (ascii_of_N 43)) as [->|_];
      [exfalso; apply Hc; reflexivity|].
    assumption.
Qed.

(** The text of an integer has no white space and no line break. *)
Lemma str_of_int_chars z :
  Forall (fun c => isspace c = false) (str_of_int z).
Proof.
  assert (H : forall n, 0 <= n -> Forall (fun c => isspace c = false) (str_nonneg n)).
  { intros n Hn. eapply Forall_impl; [|apply str_nonneg_all_digits, Hn].
    intros c Hc. now apply digit_not_space. }
  unfold str_of_int. destruct (Z.ltb_spec z 0).
  - constructor; [reflexivity | apply H; lia].
  - now apply H.
Qed.

Lemma str_of_int_nonempty z : str_of_int z <> [].
Proof.
  unfold str_of_int. destruct (z <? 0); [discriminate | apply str_nonneg_nonempty].
Qed.

End PyFacts.

(** ** Reading and writing the configuration file *)

Module ConfigFacts.
Import Py Spec PyFacts.

Lemma mem_app c a b : mem c (a ++ b) = mem c a || mem c b.
Proof. apply existsb_app. Qed.

Lemma mem_cons_neq c x s : x <> c -> mem c (x :: s) = mem c s.
Proof.
  intros H. unfold mem. simpl. destruct (ascii_dec x c); [contradiction | reflexivity].
Qed.

Lemma mem_cons_false c x s : mem c (x :: s) = false -> x <> c /\ mem c s = false.
Proof.
  unfold mem. simpl. destruct (ascii_dec x c); simpl; [discriminate | auto].
Qed.

Lemma universal_newlines_id s : mem CR s = false -> universal_newlines s = s.
Proof.
  induction s as [|c s IH]; intros H; [reflexivity|].
  apply mem_cons_false in H. destruct H as [Hc Hs].
  simpl. destruct (ascii_dec c CR); [contradiction|].
  now rewrite IH.
Qed.

Lemma file_lines_app t rest : mem LF t = false ->
  file_lines (t ++ LF :: rest) = (t ++ [LF]) :: file_lines rest.
Proof.
  induction t as [|c t IH]; intros H.
  - reflexivity.
  - apply mem_cons_false in H. destruct H as [Hc Ht].
    simpl. destruct (ascii_dec c LF); [contradiction|].
    now rewrite IH.
Qed.

Lemma no_space_no_break s : Forall (fun c => isspace c = false) s ->
  mem LF s = false /\ mem CR s = false.
Proof.
  induction 1 as [|c s Hc _ [IH1 IH2]]; [split; reflexivity|].
  split; rewrite mem_cons_neq; auto; intros ->; discriminate.
Qed.

Lemma mem_lstrip p c s : p c = false -> mem c (lstrip_by p s) = mem c s.
Proof.
  intros Hp. induction s as [|x s IH]; [reflexivity|].
  simpl. destruct (p x) eqn:Hx; [|reflexivity].
  rewrite IH. symmetry. apply mem_cons_neq. intros ->. congruence.
Qed.

Lemma mem_rev c s : mem c (rev s) = mem c s.
Proof.
  induction s as [|x s IH]; [reflexivity|].
  simpl rev. rewrite mem_app, IH. unfold mem. simpl.
  now rewrite orb_false_r, orb_comm.
Qed.

Lemma mem_strip c s : isspace c = false -> mem c (strip s) = mem c s.
Proof.
  intros Hc. unfold strip, strip_by, rstrip_by.
  now rewrite mem_rev, mem_lstrip, mem_rev, mem_lstrip.
Qed.

Lemma partition_at_mem c s : mem c s = true ->
  exists a b, partition_at c s = Some (a, b).
Proof.
  induction s as [|x s IH]; intros H; [discriminate|].
  simpl. destruct (ascii_dec x c) as [->|Hn]; [eauto|].
  rewrite mem_cons_neq in H by assumption.
  destruct (IH H) as (a & b & ->). eauto.
Qed.

(** A line that holds [=] always splits in two: the unpacking in
    [load_config] cannot fail. *)
Lemma entry_of_mem line : mem "="%char line = true ->
  exists key value,
    split_max1 "="%char (strip line) = [key; value]
    /\ entry line = Some (key, value).
Proof.
  intros H. unfold entry. rewrite H.
  destruct (partition_at_mem "="%char (strip line)) as (a & b & Hp).
  { now rewrite mem_strip. }
  unfold split_max1. rewrite Hp. eauto.
Qed.

Lemma is_int_key_cases key :
  is_int_key key = true ->
  str_eqb key (lit "DEVICE") = false
  /\ (key = lit "PAN_SPEED" \/ key = lit "TILT_SPEED" \/ key = lit "ZOOM_STEP").
Proof.
  unfold is_int_key. intros H.
  apply orb_true_iff in H. destruct H as [H|H];
    [apply orb_true_iff in H; destruct H as [H|H]|];
    apply str_eqb_eq in H; subst; split; auto.
Qed.

Lemma load_line_ok line st : malformed line = false ->
  load_line line st = (Ok tt, apply_line line st).
Proof.
  unfold malformed, load_line, apply_line. intros H.
  destruct (mem "="%char line) eqn:Hm.
  - destruct (entry_of_mem line Hm) as (key & value & Hs & He).
    rewrite Hs, He in *. unfold is_int_key in H.
    destruct (str_eqb key (lit "DEVICE")); [reflexivity|].
    unfold bind, int_or_raise, ret, modify.
    destruct (str_eqb key (lit "PAN_SPEED")), (str_eqb key (lit "TILT_SPEED")),
      (str_eqb key (lit "ZOOM_STEP")), (int value);
      simpl in H; try discriminate; reflexivity.
  - unfold entry. rewrite Hm. reflexivity.
Qed.

Lemma load_line_bad line st : malformed line = true ->
  load_line line st = (Raise ValueError, st).
Proof.
  unfold malformed, load_line. intros H.
  destruct (mem "="%char line) eqn:Hm.
  - destruct (entry_of_mem line Hm) as (key & value & Hs & He).
    rewrite Hs. rewrite He in H.
    apply andb_true_iff in H. destruct H as [Hk Hv].
    destruct (int value) eqn:Hi; [discriminate|].
    apply is_int_key_cases in Hk. destruct Hk as [-> Hk].
    unfold bind, int_or_raise, raise. rewrite Hi.
    destruct Hk as [-> | [-> | ->]]; reflexivity.
  - unfold entry in H. rewrite Hm in H. discriminate.
Qed.

Lemma load_lines_ok lines : forall st, well_formed lines = true ->
  load_lines lines st = (Ok tt, apply_lines lines st).
Proof.
  induction lines as [|l ls IH]; intros st H; [reflexivity|].
  simpl in H. apply andb_true_iff in H. destruct H as [Hl Hls].
  apply negb_true_iff in Hl.
  simpl. unfold bind. rewrite load_line_ok by assumption.
  now apply IH.
Qed.

Lemma load_lines_bad pre bad post : forall st,
  well_formed pre = true -> malformed bad = true ->
  load_lines (pre ++ bad :: post) st = (Raise ValueError, apply_lines pre st).
Proof.
  induction pre as [|l ls IH]; intros st Hpre Hbad.
  - simpl. unfold bind. now rewrite load_line_bad.
  - simpl in Hpre. apply andb_true_iff in Hpre. destruct Hpre as [Hl Hls].
    apply negb_true_iff in Hl.
    simpl. unfold bind. rewrite load_line_ok by assumption.
    now apply IH.
Qed.

End ConfigFacts.

(** ** What a load leaves in the controller *)

Module LoadFacts.
Import Py Spec PyFacts ConfigFacts.

Ltac key_cases :=
  repeat match goal with
         | |- context [str_eqb ?k ?l] =>
             let H := fresh "Hk" in
             destruct (str_eqb k l) eqn:H;
             [apply str_eqb_eq in H; subst k|]
         | H : str_eqb (lit _) (lit _) = false |- _ => clear H
         | H : str_eqb (lit _) (lit _) = true |- _ => discriminate H
         end.

Lemma apply_line_frame l st :
  config_file (apply_line l st) = config_file st
  /\ trace (apply_line l st) = trace st.
Proof.
  unfold apply_line. destruct (entry l) as [[k v]|]; [|auto].
  key_cases; try destruct (int v); auto.
Qed.

Lemma apply_lines_frame ls : forall st,
  config_file (apply_lines ls st) = config_file st
  /\ trace (apply_lines ls st) = trace st.
Proof.
  induction ls as [|l ls IH]; intros st; [auto|].
  unfold apply_lines in *. simpl.
  destruct (IH (apply_line l st)) as [-> ->]. apply apply_line_frame.
Qed.

Lemma apply_line_device l st :
  device (apply_line l st) =
  match entry l with
  | Some (k, v) => if str_eqb k (lit "DEVICE") then v else device st
  | None => device st
  end.
Proof.
  unfold apply_line. destruct (entry l) as [[k v]|]; [|reflexivity].
  key_cases; try destruct (int v); reflexivity.
Qed.

Lemma apply_line_pan_speed l st :
  pan_speed (apply_line l st) =
  match entry l with
  | Some (k, v) =>
      if str_eqb k (lit "PAN_SPEED")
      then match int v with Some n => n | None => pan_speed st end
      else pan_speed st
  | None => pan_speed st
  end.
Proof.
  unfold apply_line. destruct (entry l) as [[k v]|]; [|reflexivity].
  key_cases; try destruct (int v); reflexivity.
Qed.

Lemma apply_line_tilt_speed l st :
  tilt_speed (apply_line l st) =
  match entry l with
  | Some (k, v) =>
      if str_eqb k (lit "TILT_SPEED")
      then match int v with Some n => n | None => tilt_speed st end
      else tilt_speed st
  | None => tilt_speed st
  end.
Proof.
  unfold apply_line. destruct (entry l) as [[k v]|]; [|reflexivity].
  key_cases; try destruct (int v); reflexivity.
Qed.

Lemma apply_line_zoom_step l st :
  zoom_step (apply_line l st) =
  match entry l with
  | Some (k, v) =>
      if str_eqb k (lit "ZOOM_STEP")
      then match int v with Some n => n | None => zoom_step st end
      else zoom_step st
  | None => zoom_step st
  end.
Proof.
  unfold apply_line. destruct (entry l) as [[k v]|]; [|reflexivity].
  key_cases; try destruct (int v); reflexivity.
Qed.

Lemma apply_lines_device ls : forall st,
  str_field (device st) (device (apply_lines ls st)) (last_value (lit "DEVICE") ls).
Proof.
  induction ls as [|l ls IH]; intros st; [reflexivity|].
  unfold apply_lines in *. simpl. specialize (IH (apply_line l st)).
  unfold str_field in *.
  destruct (last_value (lit "DEVICE") ls); [assumption|].
  rewrite IH, apply_line_device.
  destruct (entry l) as [[k v]|]; [|reflexivity].
  destruct (str_eqb k (lit "DEVICE")); reflexivity.
Qed.

(** In a well-formed line the value of an integer key parses. *)
Lemma well_formed_int l k v :
  malformed l = false -> entry l = Some (k, v) -> is_int_key k = true ->
  exists n, int v = Some n.
Proof.
  unfold malformed. intros H He Hk. rewrite He, Hk in H.
  destruct (int v); [eauto | discriminate].
Qed.

Ltac int_field_proof get_line :=
  let l := fresh "l" in let ls := fresh "ls" in let IH := fresh "IH" in
  intros ls; induction ls as [|l ls IH]; intros st Hwf; [reflexivity|];
  simpl in Hwf; apply andb_true_iff in Hwf; destruct Hwf as [Hl Hls];
  apply negb_true_iff in Hl;
  unfold apply_lines in *; simpl; specialize (IH (apply_line l st) Hls);
  unfold int_field in *;
  match goal with
  | |- context [last_value ?key ls] =>
      destruct (last_value key ls); [assumption|];
      rewrite IH, get_line;
      destruct (entry l) as [[k v]|] eqn:He; [|reflexivity];
      destruct (str_eqb k key) eqn:Hk; [|reflexivity];
      apply str_eqb_eq in Hk; subst k;
      destruct (well_formed_int l _ v Hl He eq_refl) as [n Hn];
      rewrite Hn; reflexivity
  end.

Lemma apply_lines_pan_speed : forall ls st, well_formed ls = true ->
  int_field (pan_speed st) (pan_speed (apply_lines ls st))
            (last_value (lit "PAN_SPEED") ls).
Proof. int_field_proof apply_line_pan_speed. Qed.

Lemma apply_lines_tilt_speed : forall ls st, well_formed ls = true ->
  int_field (tilt_speed st) (tilt_speed (apply_lines ls st))
            (last_value (lit "TILT_SPEED") ls).
Proof. int_field_proof apply_line_tilt_speed. Qed.

Lemma apply_lines_zoom_step : forall ls st, well_formed ls = true ->
  int_field (zoom_step st) (zoom_step (apply_lines ls st))
            (last_value (lit "ZOOM_STEP") ls).
Proof. int_field_proof apply_line_zoom_step. Qed.

Lemma first_malformed ls : existsb malformed ls = true ->
  exists pre bad post,
    ls = pre ++ bad :: post /\ well_formed pre = true /\ malformed bad = true.
Proof.
  induction ls as [|l ls IH]; intros H; [discriminate|].
  simpl in H. destruct (malformed l) eqn:Hl.
  - exists [], l, ls. auto.
  - destruct (IH H) as (pre & bad & post & -> & Hpre & Hbad).
    exists (l :: pre), bad, post. repeat split; [|assumption].
    simpl. now rewrite Hl.
Qed.

End LoadFacts.

(** ** What [save_config] writes, read back *)

Module SaveFacts.
Import Py Spec PyFacts ConfigFacts.

Lemma partition_at_app c k v : mem c k = false ->
  partition_at c (k ++ c :: v) = Some (k, v).
Proof.
  induction k as [|x k IH]; intros H; simpl.
  - destruct (ascii_dec c c); [reflexivity | congruence].
  - apply mem_cons_false in H. destruct H as [Hx Hk].
    destruct (ascii_dec x c); [contradiction|]. now rewrite IH.
Qed.

Lemma ends_in_space_cases v : ends_in_space v = false ->
  v = [] \/ exists t d, v = t ++ [d] /\ isspace d = false.
Proof.
  unfold ends_in_space. intros H.
  destruct v as [|x v']; [now left | right].
  destruct (exists_last (l := x :: v')) as (t & d & Heq); [discriminate|].
  exists t, d. split; [assumption|].
  rewrite Heq, rev_app_distr in H. exact H.
Qed.

Lemma no_space_ends s : Forall (fun c => isspace c = false) s ->
  ends_in_space s = false.
Proof.
  intros H. unfold ends_in_space.
  destruct (rev s) as [|c r] eqn:Hr; [reflexivity|].
  assert (Hin : In c (rev s)) by (rewrite Hr; now left).
  apply in_rev in Hin. rewrite Forall_forall in H. now apply H.
Qed.

(** The line [save_config] writes for [key] reads back as its key and
    value, when the value does not end in white space. *)
Lemma entry_saved c k v :
  isspace c = false -> mem "="%char (c :: k) = false ->
  ends_in_space v = false ->
  entry (((c :: k) ++ ["="%char]) ++ v ++ [LF]) = Some (c :: k, v).
Proof.
  intros Hc Hk Hv. unfold entry.
  replace (mem "="%char (((c :: k) ++ ["="%char]) ++ v ++ [LF])) with true
    by (rewrite !mem_app; simpl; now rewrite orb_true_r).
  assert (Hs : strip (((c :: k) ++ ["="%char]) ++ v ++ [LF])
               = (c :: k) ++ "="%char :: v).
  { unfold strip, strip_by.
    change (((c :: k) ++ ["="%char]) ++ v ++ [LF])
      with (c :: (k ++ ["="%char]) ++ v ++ [LF]).
    rewrite lstrip_by_head by assumption.
    replace (c :: (k ++ ["="%char]) ++ v ++ [LF])
      with (((c :: k) ++ "="%char :: v) ++ [LF])
      by (simpl; now rewrite <- !app_assoc).
    rewrite rstrip_by_drop by reflexivity.
    destruct (ends_in_space_cases v Hv) as [->|(t & d & -> & Hd)].
    - now apply rstrip_by_last.
    - replace ((c :: k) ++ "="%char :: t ++ [d])
        with (((c :: k) ++ "="%char :: t) ++ [d])
        by (now rewrite <- app_assoc).
      now apply rstrip_by_last. }
  rewrite Hs. unfold split_max1. now rewrite partition_at_app.
Qed.

Lemma file_lines_saved k v rest :
  mem LF k = false -> mem LF v = false ->
  file_lines ((k ++ v ++ [LF]) ++ rest) = (k ++ v ++ [LF]) :: file_lines rest.
Proof.
  intros Hk Hv.
  replace ((k ++ v ++ [LF]) ++ rest) with ((k ++ v) ++ LF :: rest)
    by (now rewrite <- !app_assoc).
  rewrite file_lines_app by (rewrite mem_app, Hk, Hv; reflexivity).
  now rewrite <- app_assoc.
Qed.

Lemma str_of_int_no_break z :
  mem LF (str_of_int z) = false /\ mem CR (str_of_int z) = false.
Proof. apply no_space_no_break, str_of_int_chars. Qed.

Lemma has_line_break_false s : has_line_break s = false ->
  mem LF s = false /\ mem CR s = false.
Proof. unfold has_line_break. now intros H%orb_false_iff. Qed.

Lemma read_lines_config_text st : has_line_break (device st) = false ->
  read_lines (config_text st) = saved_lines st.
Proof.
  intros H. apply has_line_break_false in H. destruct H as [Hlf Hcr].
  destruct (str_of_int_no_break (pan_speed st)) as [Hp1 Hp2].
  destruct (str_of_int_no_break (tilt_speed st)) as [Ht1 Ht2].
  destruct (str_of_int_no_break (zoom_step st)) as [Hz1 Hz2].
  unfold read_lines. rewrite universal_newlines_id.
  - unfold config_text.
    rewrite !file_lines_saved by (assumption || reflexivity).
    rewrite <- (app_nil_r (lit "ZOOM_STEP=" ++ _ ++ [LF])).
    rewrite file_lines_saved by (assumption || reflexivity).
    reflexivity.
  - unfold config_text. rewrite !mem_app.
    rewrite Hcr, Hp2, Ht2, Hz2. reflexivity.
Qed.

Lemma entry_saved_device dev : ends_in_space dev = false ->
  entry (lit "DEVICE=" ++ dev ++ [LF]) = Some (lit "DEVICE", dev).
Proof. intros H. now apply (entry_saved "D"%char (lit "EVICE")). Qed.

Lemma entry_saved_int (k : string) c k' z :
  lit k = c :: k' -> isspace c = false -> mem "="%char (c :: k') = false ->
  entry ((lit k ++ ["="%char]) ++ str_of_int z ++ [LF])
  = Some (lit k, str_of_int z).
Proof.
  intros -> Hc Hk. apply entry_saved; auto using no_space_ends, str_of_int_chars.
Qed.

(** The saved lines are well formed, and applying them to any controller
    gives it the four saved fields. *)
Lemma saved_lines_apply st other :
  ends_in_space (device st) = false ->
  well_formed (saved_lines st) = true
  /\ apply_lines (saved_lines st) other
     = mkState (device st) (pan_speed st) (tilt_speed st) (zoom_step st)
               (config_file other) (trace other).
Proof.
  intros Hd.
  pose proof (entry_saved_device (device st) Hd) as E1.
  pose proof (entry_saved_int "PAN_SPEED" _ _ (pan_speed st) eq_refl eq_refl eq_refl) as E2.
  pose proof (entry_saved_int "TILT_SPEED" _ _ (tilt_speed st) eq_refl eq_refl eq_refl) as E3.
  pose proof (entry_saved_int "ZOOM_STEP" _ _ (zoom_step st) eq_refl eq_refl eq_refl) as E4.
  change (lit "PAN_SPEED" ++ ["="%char]) with (lit "PAN_SPEED=") in E2.
  change (lit "TILT_SPEED" ++ ["="%char]) with (lit "TILT_SPEED=") in E3.
  change (lit "ZOOM_STEP" ++ ["="%char]) with (lit "ZOOM_STEP=") in E4.
  split.
  - unfold well_formed, saved_lines, forallb, malformed.
    rewrite E1, E2, E3, E4, !int_str_of_int. reflexivity.
  - unfold apply_lines, saved_lines, fold_left, apply_line.
    rewrite E1, E2, E3, E4, !int_str_of_int. reflexivity.
Qed.

End SaveFacts.

(** ** The configuration store *)

Import Py Spec Sample.

Lemma load_config_some st content : config_file st = Some content ->
  load_config st = load_lines (read_lines content) st.
Proof. intros H. unfold load_config, bind, get. now rewrite H. Qed.

Lemma load_config_none st : config_file st = None ->
  load_config st = (Ok tt, st).
Proof. intros H. unfold load_config, bind, get. now rewrite H. Qed.

(** A load of well-formed lines completes, and each field is what the
    last line with its key says, or what it was. *)
Lemma load_config_well_formed st content :
  config_file st = Some content ->
  well_formed (read_lines content) = true ->
  exists st',
    load_config st = (Ok tt, st')
    /\ config_file st' = Some content /\ trace st' = trace st
    /\ str_field (device st) (device st')
         (last_value (lit "DEVICE") (read_lines content))
    /\ int_field (pan_speed st) (pan_speed st')
         (last_value (lit "PAN_SPEED") (read_lines content))
    /\ int_field (tilt_speed st) (tilt_speed st')
         (last_value (lit "TILT_SPEED") (read_lines content))
    /\ int_field (zoom_step st) (zoom_step st')
         (last_value (lit "ZOOM_STEP") (read_lines content)).
Proof.
  intros Hf Hwf. exists (apply_lines (read_lines content) st).
  rewrite (load_config_some _ _ Hf), ConfigFacts.load_lines_ok by assumption.
  destruct (LoadFacts.apply_lines_frame (read_lines content) st) as [-> ->].
  repeat split; auto using LoadFacts.apply_lines_device,
    LoadFacts.apply_lines_pan_speed, LoadFacts.apply_lines_tilt_speed,
    LoadFacts.apply_lines_zoom_step.
Qed.

(** C5: when the configuration file holds a PAN_SPEED, TILT_SPEED or
    ZOOM_STEP line whose value [int()] rejects, [load_config] does not
    complete: it raises [ValueError], and so does the construction of the
    controller; no default stands in for the value. *)
Theorem load_config_malformed_raises st content :
  config_file st = Some content ->
  existsb malformed (read_lines content) = true ->
  (exists st', load_config st = (Raise ValueError, st'))
  /\ forall d tr, exists st', init d (Some content) tr = (Raise ValueError, st').
Proof.
  intros Hf Hbad.
  destruct (LoadFacts.first_malformed _ Hbad)
    as (pre & bad & post & Hl & Hpre & Hb).
  split.
  - eexists. rewrite (load_config_some _ _ Hf), Hl.
    now apply ConfigFacts.load_lines_bad.
  - intros d tr. eexists. unfold init.
    erewrite load_config_some by reflexivity. rewrite Hl.
    now apply ConfigFacts.load_lines_bad.
Qed.

Lemma load_config_malformed_raises_witness :
  exists st',
    load_config (fresh (Some half_good_file))
    = (Raise ValueError, st').
Proof.
  apply (load_config_malformed_raises
           (fresh (Some half_good_file))
           half_good_file); reflexivity.
Defined.

(** C6: without a configuration file a new controller holds the built-in
    defaults; with a file of well-formed lines the construction completes,
    every field whose key appears holds the value of (the last of) its
    lines, and every field whose key does not appear holds its default.
    For the three integer fields the value is what [int()] reads: the
    number [z] when the text is the decimal text of [z]. *)
Theorem load_defaults_and_parsed tr content :
  init None None tr = (Ok tt, mkState (lit "/dev/video0") 1 1 10 None tr)
  /\ (well_formed (read_lines content) = true ->
      exists st,
        init None (Some content) tr = (Ok tt, st)
        /\ str_field (lit "/dev/video0") (device st)
             (last_value (lit "DEVICE") (read_lines content))
        /\ int_field 1 (pan_speed st)
             (last_value (lit "PAN_SPEED") (read_lines content))
        /\ int_field 1 (tilt_speed st)
             (last_value (lit "TILT_SPEED") (read_lines content))
        /\ int_field 10 (zoom_step st)
             (last_value (lit "ZOOM_STEP") (read_lines content))
        /\ (forall z,
              last_value (lit "PAN_SPEED") (read_lines content)
              = Some (str_of_int z) -> pan_speed st = z)
        /\ (forall z,
              last_value (lit "TILT_SPEED") (read_lines content)
              = Some (str_of_int z) -> tilt_speed st = z)
        /\ (forall z,
              last_value (lit "ZOOM_STEP") (read_lines content)
              = Some (str_of_int z) -> zoom_step st = z)).
Proof.
  split; [reflexivity|]. intros Hwf. unfold init.
  destruct (load_config_well_formed
              (mkState (device_or_default None) 1 1 10 (Some content) tr)
              content eq_refl Hwf)
    as (st & Hload & _ & _ & Hd & Hp & Ht & Hz).
  exists st. repeat split; try assumption;
    intros z Hl; unfold int_field in *;
    [rewrite Hl in Hp | rewrite Hl in Ht | rewrite Hl in Hz];
    rewrite PyFacts.int_str_of_int in *; congruence.
Qed.

Lemma load_defaults_and_parsed_witness :
  exists st,
    init None (Some partial_file) [] = (Ok tt, st)
    /\ device st = lit "/dev/video4" /\ pan_speed st = 3
    /\ tilt_speed st = 1 /\ zoom_step st = 10.
Proof.
  destruct (proj2 (load_defaults_and_parsed [] partial_file) eq_refl)
    as (st & Hi & Hd & Hp & Ht & Hz & _).
  exists st. repeat split; try assumption.
  change (int (lit " 3") = Some (pan_speed st)) in Hp.
  change (Some 3 = Some (pan_speed st)) in Hp.
  now injection Hp as <-.
Defined.

(** C9: a device path given to the constructor is kept only when the
    configuration file is absent or has no DEVICE line; when the file has
    one, the controller holds the file's value, and nothing is logged. *)
Theorem explicit_device_overridden d tr content :
  d <> [] ->
  init (Some d) None tr = (Ok tt, mkState d 1 1 10 None tr)
  /\ (well_formed (read_lines content) = true ->
      exists st,
        init (Some d) (Some content) tr = (Ok tt, st)
        /\ trace st = tr
        /\ device st = match last_value (lit "DEVICE") (read_lines content) with
                       | Some v => v
                       | None => d
                       end).
Proof.
  intros Hd.
  assert (Hdef : device_or_default (Some d) = d)
    by (destruct d; [congruence | reflexivity]).
  split.
  - unfold init. rewrite Hdef. reflexivity.
  - intros Hwf. unfold init.
    destruct (load_config_well_formed
                (mkState (device_or_default (Some d)) 1 1 10 (Some content) tr)
                content eq_refl Hwf)
      as (st & Hload & _ & Htr & Hdev & _).
    exists st. repeat split; [assumption | assumption |].
    unfold str_field in Hdev.
    destruct (last_value (lit "DEVICE") (read_lines content));
      [assumption|]. rewrite Hdev. exact Hdef.
Qed.

Lemma explicit_device_overridden_witness :
  exists st,
    init (Some (lit "/dev/video2")) (Some partial_file) [] = (Ok tt, st)
    /\ trace st = []
    /\ device st = lit "/dev/video4".
Proof.
  apply (proj2 (explicit_device_overridden (lit "/dev/video2") [] partial_file
                  ltac:(discriminate))).
  reflexivity.
Defined.

(** C10: when the first malformed integer value of the file is on line k,
    [load_config] raises [ValueError] in the state the lines before k have
    produced: each field holds the value of the last of those lines with
    its key, or what it held before the load. *)
Theorem load_config_not_atomic st content pre bad post :
  config_file st = Some content ->
  read_lines content = pre ++ bad :: post ->
  well_formed pre = true ->
  malformed bad = true ->
  exists st',
    load_config st = (Raise ValueError, st')
    /\ load_lines pre st = (Ok tt, st')
    /\ str_field (device st) (device st') (last_value (lit "DEVICE") pre)
    /\ int_field (pan_speed st) (pan_speed st')
         (last_value (lit "PAN_SPEED") pre)
    /\ int_field (tilt_speed st) (tilt_speed st')
         (last_value (lit "TILT_SPEED") pre)
    /\ int_field (zoom_step st) (zoom_step st')
         (last_value (lit "ZOOM_STEP") pre).
Proof.
  intros Hf Hl Hpre Hbad. exists (apply_lines pre st).
  rewrite (load_config_some _ _ Hf), Hl.
  rewrite ConfigFacts.load_lines_bad, ConfigFacts.load_lines_ok by assumption.
  repeat split; auto using LoadFacts.apply_lines_device,
    LoadFacts.apply_lines_pan_speed, LoadFacts.apply_lines_tilt_speed,
    LoadFacts.apply_lines_zoom_step.
Qed.

Lemma load_config_not_atomic_witness :
  exists st',
    load_config (fresh (Some half_good_file))
    = (Raise ValueError, st')
    /\ load_lines [lit "PAN_SPEED=5" ++ [LF]]
         (fresh (Some half_good_file))
       = (Ok tt, st')
    /\ device st' = lit "/dev/video0"
    /\ int (lit "5") = Some (pan_speed st')
    /\ tilt_speed st' = 1 /\ zoom_step st' = 10.
Proof.
  apply (load_config_not_atomic
           (fresh (Some half_good_file))
           half_good_file
           [lit "PAN_SPEED=5" ++ [LF]]
           (lit "TILT_SPEED=fast" ++ [LF])
           [lit "ZOOM_STEP=20" ++ [LF]]); reflexivity.
Defined.

(** C3, as stated, fails: a device path that ends in a space has no line
    break, yet the [strip] of [load_config] drops the space when the saved
    file is read back. *)
Lemma save_load_drops_trailing_space :
  let st := mkState (lit "/dev/video2 ") 2 3 15 None [] in
  has_line_break (device st) = false
  /\ exists st',
       bind save_config (fun _ => load_config) st = (Ok tt, st')
       /\ device st' = lit "/dev/video2"
       /\ device st' <> device st.
Proof.
  split; [reflexivity|].
  eexists. split; [reflexivity|]. split; [reflexivity | discriminate].
Qed.

(** C3, amended: for a controller whose device path holds no line feed
    and no carriage return and does not end in white space, and whatever
    its three integers, loading the file [save_config] has written
    completes and gives back the four fields: in the controller that
    saved, and in any controller constructed on that file. *)
Theorem save_then_load_roundtrip st :
  has_line_break (device st) = false ->
  ends_in_space (device st) = false ->
  bind save_config (fun _ => load_config) st
  = (Ok tt, set_config_file (Some (config_text st)) st)
  /\ forall d tr,
       init d (Some (config_text st)) tr
       = (Ok tt, mkState (device st) (pan_speed st) (tilt_speed st)
                         (zoom_step st) (Some (config_text st)) tr).
Proof.
  intros Hbreak Hend.
  assert (Hload : forall other, config_file other = Some (config_text st) ->
            load_config other
            = (Ok tt, mkState (device st) (pan_speed st) (tilt_speed st)
                              (zoom_step st) (config_file other) (trace other))).
  { intros other Hf.
    destruct (SaveFacts.saved_lines_apply st other Hend) as [Hwf Happ].
    rewrite (load_config_some _ _ Hf), SaveFacts.read_lines_config_text
      by assumption.
    now rewrite ConfigFacts.load_lines_ok, Happ. }
  split.
  - unfold bind at 1. unfold save_config at 1. unfold bind, get, modify.
    rewrite Hload by reflexivity. reflexivity.
  - intros d tr. unfold init. rewrite Hload by reflexivity. reflexivity.
Qed.

Lemma save_then_load_roundtrip_witness :
  let st := mkState (lit "/dev/video2") 2 3 15 None [] in
  bind save_config (fun _ => load_config) st
  = (Ok tt, set_config_file (Some (config_text st)) st).
Proof.
  apply (proj1 (save_then_load_roundtrip
                  (mkState (lit "/dev/video2") 2 3 15 None [])
                  eq_refl eq_refl)).
Defined.

(** ** Command lines and the NUL character *)

Module NulFacts.
Import ConfigFacts PyFacts.

Lemma exec_some_no_nul E cmd out : exec E cmd = Some out ->
  mem NUL cmd = false.
Proof. unfold exec. destruct (mem NUL cmd); [discriminate | reflexivity]. Qed.

Lemma all_digits_no_nul s : all_digits s -> mem NUL s = false.
Proof.
  induction 1 as [|c s Hc _ IH]; [reflexivity|].
  rewrite mem_cons_neq; [exact IH|]. intros ->. apply Hc. reflexivity.
Qed.

Lemma str_of_int_no_nul z : mem NUL (str_of_int z) = false.
Proof.
  unfold str_of_int. destruct (Z.ltb_spec z 0).
  - rewrite mem_cons_neq by discriminate.
    apply all_digits_no_nul, str_nonneg_all_digits. lia.
  - apply all_digits_no_nul, str_nonneg_all_digits. assumption.
Qed.

Lemma set_ctrl_nul dev name val :
  mem NUL (set_ctrl dev name val)
  = mem NUL dev || mem NUL name || mem NUL val.
Proof.
  unfold set_ctrl. rewrite !mem_app.
  change (mem NUL (lit "v4l2-ctl -d ")) with false.
  change (mem NUL (lit " -c ")) with false.
  change (mem NUL (lit "=")) with false.
  simpl. now rewrite orb_assoc.
Qed.

Lemma get_ctrl_nul dev name :
  mem NUL (get_ctrl dev name) = mem NUL dev || mem NUL name.
Proof.
  unfold get_ctrl. rewrite !mem_app.
  change (mem NUL (lit "v4l2-ctl -d ")) with false.
  change (mem NUL (lit " --get-ctrl=")) with false.
  reflexivity.
Qed.

Lemma list_ctrls_nul dev : mem NUL (list_ctrls dev) = mem NUL dev.
Proof.
  unfold list_ctrls. rewrite !mem_app.
  change (mem NUL (lit "v4l2-ctl -d ")) with false.
  change (mem NUL (lit " --list-ctrls")) with false.
  simpl. apply orb_false_r.
Qed.

(** The paths [glob] lists hold no NUL. *)
Lemma glob_video_clean E :
  Forall (fun p => mem NUL p = false) (glob_video E).
Proof.
  unfold glob_video. apply Forall_forall. intros p Hp.
  apply filter_In in Hp. destruct Hp as [_ Hp].
  now apply negb_true_iff in Hp.
Qed.

(** A path that exists holds no NUL. *)
Lemma path_exists_no_nul H p : path_exists H p = true -> mem NUL p = false.
Proof.
  unfold path_exists. destruct (mem NUL p); [discriminate | reflexivity].
Qed.

Lemma get_ctrl_ran E dev name out :
  exec E (get_ctrl dev name) = Some out -> mem NUL dev = false.
Proof.
  intros He. apply exec_some_no_nul in He. rewrite get_ctrl_nul in He.
  now apply orb_false_iff in He.
Qed.

End NulFacts.

(** Closes a goal that says a command line, or a part of one, holds no
    NUL. *)
Ltac nonul :=
  repeat first
    [ assumption
    | apply NulFacts.str_of_int_no_nul
    | rewrite NulFacts.set_ctrl_nul
    | rewrite NulFacts.get_ctrl_nul
    | rewrite NulFacts.list_ctrls_nul
    | rewrite ConfigFacts.mem_app
    | rewrite NulFacts.str_of_int_no_nul
    | progress cbn [device after pan_speed tilt_speed zoom_step]
    | match goal with
      | Hn : mem NUL ?d = false |- context [mem NUL ?d] => rewrite Hn
      end
    | reflexivity ].

(** ** Zoom *)

Section Zoom.

Variable E : env.

Lemma bind_ok {A B} (m : M A) (k : A -> M B) st a st' :
  m st = (Ok a, st') -> bind m k st = k a st'.
Proof. intros H. unfold bind. now rewrite H. Qed.

Lemma bind_raise {A B} (m : M A) (k : A -> M B) st e st' :
  m st = (Raise e, st') -> bind m k st = (Raise e, st').
Proof. intros H. unfold bind. now rewrite H. Qed.

Lemma run_command_capture cmd st out : exec E cmd = Some out ->
  run_command E cmd true st = (Ok (VStr out), after [Run cmd true] st).
Proof.
  intros H. unfold run_command, bind, modify, ret.
  now rewrite (NulFacts.exec_some_no_nul _ _ _ H), H.
Qed.

Lemma run_command_failed cmd st :
  exec E cmd = None -> mem NUL cmd = false ->
  run_command E cmd true st = (Ok (VBool false), after [Run cmd true] st).
Proof.
  intros H Hn. unfold run_command, bind, modify, ret. now rewrite Hn, H.
Qed.

(** A write whose command line holds no NUL is logged whatever the utility
    answers, and raises nothing. *)
Lemma run_command_write cmd st : mem NUL cmd = false ->
  exists b, run_command E cmd false st = (Ok (VBool b), after [Run cmd false] st).
Proof.
  intros Hn. unfold run_command, bind, modify, ret. rewrite Hn.
  destruct (exec E cmd); eauto.
Qed.

(** A command line that holds NUL is not run: [ValueError]. *)
Lemma run_command_nul cmd cap st : mem NUL cmd = true ->
  run_command E cmd cap st = (Raise ValueError, st).
Proof. intros Hn. unfold run_command. now rewrite Hn. Qed.

Lemma read_zoom_ok reply field c st :
  nth_error (split "="%char reply) 1 = Some field ->
  int (strip field) = Some c ->
  read_zoom (VStr reply) st = (Ok c, st).
Proof. intros H1 H2. unfold read_zoom, int_or_raise. now rewrite H1, H2. Qed.

Lemma read_zoom_error reply e st : read_error reply = Some e ->
  read_zoom (VStr reply) st = (Raise e, st).
Proof.
  unfold read_error, read_zoom, int_or_raise.
  destruct (nth_error (split "="%char reply) 1) as [field|].
  - destruct (int (strip field)); [discriminate|]. now intros [= <-].
  - now intros [= <-].
Qed.

Lemma after_after a b st : after b (after a st) = after (a ++ b) st.
Proof. unfold after. simpl. now rewrite <- app_assoc. Qed.

Lemma zoom_in_run st reply field c :
  exec E (get_ctrl (device st) (lit "zoom_absolute")) = Some reply ->
  nth_error (split "="%char reply) 1 = Some field ->
  int (strip field) = Some c ->
  zoom_in E st
  = (Ok tt, after (zoom_events st (Z.min (c + zoom_step st) 500)) st).
Proof.
  intros He Hf Hc. unfold zoom_in.
  pose proof (NulFacts.get_ctrl_ran _ _ _ _ He) as Hdev.
  rewrite (bind_ok get _ st st st) by reflexivity.
  erewrite bind_ok by (apply run_command_capture, He).
  erewrite bind_ok by (eapply read_zoom_ok; eassumption).
  erewrite bind_ok by reflexivity.
  cbv beta zeta.
  match goal with
  | |- bind (run_command E ?cmd false) _ ?s = _ =>
      destruct (run_command_write cmd s ltac:(nonul)) as [b Hw]
  end.
  erewrite bind_ok by exact Hw.
  unfold ret. now rewrite after_after.
Qed.

Lemma zoom_out_run st reply field c :
  exec E (get_ctrl (device st) (lit "zoom_absolute")) = Some reply ->
  nth_error (split "="%char reply) 1 = Some field ->
  int (strip field) = Some c ->
  zoom_out E st
  = (Ok tt, after (zoom_events st (Z.max (c - zoom_step st) 100)) st).
Proof.
  intros He Hf Hc. unfold zoom_out.
  pose proof (NulFacts.get_ctrl_ran _ _ _ _ He) as Hdev.
  rewrite (bind_ok get _ st st st) by reflexivity.
  erewrite bind_ok by (apply run_command_capture, He).
  erewrite bind_ok by (eapply read_zoom_ok; eassumption).
  erewrite bind_ok by reflexivity.
  cbv beta zeta.
  match goal with
  | |- bind (run_command E ?cmd false) _ ?s = _ =>
      destruct (run_command_write cmd s ltac:(nonul)) as [b Hw]
  end.
  erewrite bind_ok by exact Hw.
  unfold ret. now rewrite after_after.
Qed.

(** C1: when the reply to the read of [zoom_absolute] parses to [c],
    [zoom_in] writes [min(c + zoom_step, 500)] to [zoom_absolute] and
    [zoom_out] writes [max(c - zoom_step, 100)], each as the decimal text
    that [int()] reads back as that number; each runs the read and that one
    write, and nothing else. *)
Theorem zoom_writes_clamped_step st reply field c :
  exec E (lit "v4l2-ctl -d " ++ device st ++ lit " --get-ctrl=zoom_absolute")
  = Some reply ->
  nth_error (split "="%char reply) 1 = Some field ->
  int (strip field) = Some c ->
  zoom_in E st
  = (Ok tt,
     after [Run (lit "v4l2-ctl -d " ++ device st
                 ++ lit " --get-ctrl=zoom_absolute") true;
            Run (lit "v4l2-ctl -d " ++ device st ++ lit " -c zoom_absolute="
                 ++ str_of_int (Z.min (c + zoom_step st) 500)) false] st)
  /\ zoom_out E st
     = (Ok tt,
        after [Run (lit "v4l2-ctl -d " ++ device st
                    ++ lit " --get-ctrl=zoom_absolute") true;
               Run (lit "v4l2-ctl -d " ++ device st ++ lit " -c zoom_absolute="
                    ++ str_of_int (Z.max (c - zoom_step st) 100)) false] st)
  /\ int (str_of_int (Z.min (c + zoom_step st) 500))
     = Some (Z.min (c + zoom_step st) 500)
  /\ int (str_of_int (Z.max (c - zoom_step st) 100))
     = Some (Z.max (c - zoom_step st) 100).
Proof.
  intros He Hf Hc.
  change (exec E (get_ctrl (device st) (lit "zoom_absolute")) = Some reply)
    in He.
  split; [|split; [|split; apply PyFacts.int_str_of_int]].
  - rewrite (zoom_in_run st reply field c He Hf Hc). reflexivity.
  - rewrite (zoom_out_run st reply field c He Hf Hc). reflexivity.
Qed.

(** C2, amended: the value [zoom_in] writes is at most 500 and the value
    [zoom_out] writes is at least 100; when the reading is in [100, 500]
    and the zoom step is not negative, both lie in [100, 500]. *)
Theorem zoom_written_bounds st reply field c :
  exec E (get_ctrl (device st) (lit "zoom_absolute")) = Some reply ->
  nth_error (split "="%char reply) 1 = Some field ->
  int (strip field) = Some c ->
  exists vin vout,
    zoom_in E st = (Ok tt, after (zoom_events st vin) st)
    /\ zoom_out E st = (Ok tt, after (zoom_events st vout) st)
    /\ vin <= 500 /\ 100 <= vout
    /\ (100 <= c <= 500 -> 0 <= zoom_step st ->
        100 <= vin <= 500 /\ 100 <= vout <= 500).
Proof.
  intros He Hf Hc.
  exists (Z.min (c + zoom_step st) 500), (Z.max (c - zoom_step st) 100).
  split; [eapply zoom_in_run; eassumption|].
  split; [eapply zoom_out_run; eassumption|]. lia.
Qed.

End Zoom.

Lemma zoom_writes_clamped_step_witness :
  zoom_in (always (lit "zoom_absolute=495")) (fresh None)
  = (Ok tt,
     after [Run (lit "v4l2-ctl -d /dev/video0 --get-ctrl=zoom_absolute") true;
            Run (lit "v4l2-ctl -d /dev/video0 -c zoom_absolute=500") false]
           (fresh None))
  /\ zoom_out (always (lit "zoom_absolute=495")) (fresh None)
     = (Ok tt,
        after [Run (lit "v4l2-ctl -d /dev/video0 --get-ctrl=zoom_absolute") true;
               Run (lit "v4l2-ctl -d /dev/video0 -c zoom_absolute=485") false]
              (fresh None))
  /\ int (lit "500") = Some 500
  /\ int (lit "485") = Some 485.
Proof.
  apply (zoom_writes_clamped_step (always (lit "zoom_absolute=495")) (fresh None)
           (lit "zoom_absolute=495") (lit "495") 495); reflexivity.
Defined.

(** C2, as stated, fails: on a reading of 50 with the default step of 10,
    [zoom_in] writes 60, which is below 100. *)
Lemma zoom_in_writes_below_100 :
  zoom_in (always (lit "zoom_absolute=50")) (fresh None)
  = (Ok tt,
     after [Run (lit "v4l2-ctl -d /dev/video0 --get-ctrl=zoom_absolute") true;
            Run (lit "v4l2-ctl -d /dev/video0 -c zoom_absolute=60") false]
           (fresh None))
  /\ ~ (100 <= 60 <= 500).
Proof. split; [reflexivity | lia]. Qed.

Lemma zoom_written_bounds_witness :
  exists vin vout,
    zoom_in (always (lit "zoom_absolute=495")) (fresh None)
    = (Ok tt, after (zoom_events (fresh None) vin) (fresh None))
    /\ zoom_out (always (lit "zoom_absolute=495")) (fresh None)
       = (Ok tt, after (zoom_events (fresh None) vout) (fresh None))
    /\ vin <= 500 /\ 100 <= vout
    /\ (100 <= 495 <= 500 -> 0 <= 10 ->
        100 <= vin <= 500 /\ 100 <= vout <= 500).
Proof.
  apply (zoom_written_bounds (always (lit "zoom_absolute=495")) (fresh None)
           (lit "zoom_absolute=495") (lit "495") 495); reflexivity.
Defined.

(** ** Failed reads *)

Section ReadFailure.

Variable E : env.
Variables setup run_demo : M bool.

Lemma zoom_in_read_error st reply e :
  exec E (get_ctrl (device st) (lit "zoom_absolute")) = Some reply ->
  read_error reply = Some e ->
  zoom_in E st
  = (Raise e, after [Run (get_ctrl (device st) (lit "zoom_absolute")) true] st).
Proof.
  intros He Hr. unfold zoom_in.
  rewrite (bind_ok get _ st st st) by reflexivity.
  erewrite bind_ok by (apply run_command_capture, He).
  erewrite bind_raise; [reflexivity|]. now apply read_zoom_error.
Qed.

Lemma zoom_out_read_error st reply e :
  exec E (get_ctrl (device st) (lit "zoom_absolute")) = Some reply ->
  read_error reply = Some e ->
  zoom_out E st
  = (Raise e, after [Run (get_ctrl (device st) (lit "zoom_absolute")) true] st).
Proof.
  intros He Hr. unfold zoom_out.
  rewrite (bind_ok get _ st st st) by reflexivity.
  erewrite bind_ok by (apply run_command_capture, He).
  erewrite bind_raise; [reflexivity|]. now apply read_zoom_error.
Qed.

(** The utility itself failing: [run_command] hands back [False], which
    has no [split]. *)
Lemma zoom_in_failed_invocation st :
  mem NUL (device st) = false ->
  exec E (get_ctrl (device st) (lit "zoom_absolute")) = None ->
  zoom_in E st
  = (Raise AttributeError,
     after [Run (get_ctrl (device st) (lit "zoom_absolute")) true] st).
Proof.
  intros Hdev He. unfold zoom_in.
  rewrite (bind_ok get _ st st st) by reflexivity.
  erewrite bind_ok by (apply run_command_failed; [exact He | nonul]).
  reflexivity.
Qed.

(** C7, amended: when the reply to the read of [zoom_absolute] is a text
    with no [=] in it, the read raises [IndexError]; when the text between
    its first and second [=] is not an integer literal, it raises
    [ValueError].  In both cases [zoom_in] and [zoom_out] stop before
    writing anything, and nothing catches the exception: [main] ends with
    it. *)
Theorem zoom_read_error_uncaught a file st0 reply e :
  init (arg_device a) file [] = (Ok tt, st0) ->
  reaches_zoom a = true ->
  arg_zoom_in a = true \/ arg_zoom_out a = true ->
  exec E (get_ctrl (device st0) (lit "zoom_absolute")) = Some reply ->
  read_error reply = Some e ->
  (e = IndexError \/ e = ValueError)
  /\ zoom_in E st0
     = (Raise e, after [Run (get_ctrl (device st0) (lit "zoom_absolute")) true] st0)
  /\ zoom_out E st0
     = (Raise e, after [Run (get_ctrl (device st0) (lit "zoom_absolute")) true] st0)
  /\ main E setup run_demo a file
     = (Raise e, after [Run (get_ctrl (device st0) (lit "zoom_absolute")) true] st0).
Proof.
  intros Hinit Hflags Hzoom He Hr.
  pose proof (zoom_in_read_error st0 reply e He Hr) as Hin.
  pose proof (zoom_out_read_error st0 reply e He Hr) as Hout.
  split.
  { unfold read_error in Hr.
    destruct (nth_error (split "="%char reply) 1) as [field|];
      [destruct (int (strip field)); [discriminate|] |];
      injection Hr as <-; auto. }
  split; [assumption|]. split; [assumption|].
  unfold main. rewrite Hinit.
  unfold reaches_zoom in Hflags.
  repeat (apply andb_true_iff in Hflags; destruct Hflags as [Hflags ?]).
  repeat match goal with
         | H : negb ?b = true |- _ => apply negb_true_iff in H; rewrite H
         end.
  destruct (arg_zoom_in a); [assumption|].
  destruct Hzoom as [Hz|Hz]; [discriminate|]. now rewrite Hz.
Qed.

End ReadFailure.

(** C7, as stated, fails: on a reply that is not of the form name=value
    the exception is an [IndexError], and it is not confined to the read:
    [main] ends with it, before any write. *)
Lemma unparsable_reply_ends_main :
  main (always (lit "unknown control")) (ret true) (ret true) zoom_in_args None
  = (Raise IndexError,
     after [Run (lit "v4l2-ctl -d /dev/video0 --get-ctrl=zoom_absolute") true]
           (fresh None)).
Proof. reflexivity. Qed.

Lemma zoom_read_error_uncaught_witness :
  (ValueError = IndexError \/ ValueError = ValueError)
  /\ zoom_in (always (lit "zoom_absolute=max")) (fresh None)
     = (Raise ValueError,
        after [Run (get_ctrl (lit "/dev/video0") (lit "zoom_absolute")) true]
              (fresh None))
  /\ zoom_out (always (lit "zoom_absolute=max")) (fresh None)
     = (Raise ValueError,
        after [Run (get_ctrl (lit "/dev/video0") (lit "zoom_absolute")) true]
              (fresh None))
  /\ main (always (lit "zoom_absolute=max")) (ret true) (ret true)
          zoom_in_args None
     = (Raise ValueError,
        after [Run (get_ctrl (lit "/dev/video0") (lit "zoom_absolute")) true]
              (fresh None)).
Proof.
  apply (zoom_read_error_uncaught (always (lit "zoom_absolute=max"))
           (ret true) (ret true) zoom_in_args None (fresh None)
           (lit "zoom_absolute=max") ValueError);
    solve [reflexivity | left; reflexivity].
Defined.

(** ** Reset *)

Section Reset.

Variable E : env.

Lemma write_ctrl_run name val st :
  mem NUL (set_ctrl (device st) name val) = false ->
  write_ctrl E name val st
  = (Ok tt, after [Run (set_ctrl (device st) name val) false] st).
Proof.
  intros Hn. unfold write_ctrl.
  rewrite (bind_ok get _ st st st) by reflexivity.
  destruct (run_command_write E (set_ctrl (device st) name val) st Hn)
    as [b Hw].
  erewrite bind_ok by exact Hw. reflexivity.
Qed.

Lemma sleep_run ms st : sleep ms st = (Ok tt, after [Sleep ms] st).
Proof. reflexivity. Qed.

(** With a device path that holds NUL (a DEVICE line of the configuration
    file can hold one) the first write of [reset_position] is not run: the
    [ValueError] of [subprocess.run] ends the reset. *)
Lemma reset_position_nul_device st : mem NUL (device st) = true ->
  reset_position E st = (Raise ValueError, st).
Proof.
  intros Hn. unfold reset_position. apply bind_raise.
  unfold write_ctrl. rewrite (bind_ok get _ st st st) by reflexivity.
  apply bind_raise. apply run_command_nul.
  rewrite NulFacts.set_ctrl_nul, Hn. reflexivity.
Qed.


End Reset.


(** ** Device discovery *)

Section Discovery.

Variable E : env.

Lemma probe_head dev rest st : mem NUL dev = false ->
  probe_devices E (dev :: rest) st
  = if pan_capable E dev
    then (Ok true, selected dev [Run (list_ctrls dev) true] st)
    else probe_devices E rest (after [Run (list_ctrls dev) true] st).
Proof.
  intros Hn. unfold pan_capable. simpl probe_devices.
  destruct (exec E (list_ctrls dev)) as [[|c s]|] eqn:He.
  - erewrite bind_ok by (apply run_command_capture, He). reflexivity.
  - erewrite bind_ok by (apply run_command_capture, He).
    simpl truthy. cbv iota.
    unfold value_contains at 1. unfold bind at 1. unfold ret at 1.
    destruct (contains (lit "pan_speed") (c :: s)); reflexivity.
  - erewrite bind_ok by (apply run_command_failed; [exact He | nonul]).
    reflexivity.
Qed.

Lemma pan_capable_no_nul dev : pan_capable E dev = true -> mem NUL dev = false.
Proof.
  unfold pan_capable. destruct (exec E (list_ctrls dev)) eqn:He; [|discriminate].
  intros _. apply NulFacts.exec_some_no_nul in He.
  now rewrite NulFacts.list_ctrls_nul in He.
Qed.

Lemma selected_after dev a b st :
  selected dev b (after a st) = selected dev (a ++ b) st.
Proof. unfold selected, after. simpl. now rewrite <- app_assoc. Qed.

Lemma probe_first pre : forall dev post st,
  Forall (fun p => mem NUL p = false) pre ->
  none_capable E pre = true -> pan_capable E dev = true ->
  probe_devices E (pre ++ dev :: post) st
  = (Ok true, selected dev (probes (pre ++ [dev])) st).
Proof.
  induction pre as [|d pre IH]; intros dev post st Hc Hpre Hdev.
  - simpl app. rewrite probe_head, Hdev by now apply pan_capable_no_nul.
    reflexivity.
  - simpl in Hpre. apply andb_true_iff in Hpre. destruct Hpre as [Hd Hpre].
    apply negb_true_iff in Hd. inversion Hc as [|? ? Hcd Hcp]; subst.
    simpl app. rewrite probe_head, Hd, IH by assumption.
    now rewrite selected_after.
Qed.

(** What [glob] lists before a given entry holds no NUL. *)
Lemma glob_prefix_clean pre dev post :
  glob_video E = pre ++ dev :: post ->
  Forall (fun p => mem NUL p = false) pre.
Proof.
  intros Hl. pose proof (NulFacts.glob_video_clean E) as Hc.
  rewrite Hl in Hc. now apply Forall_app in Hc.
Qed.

Lemma find_by_name_fails out st : name_search_fails out = true ->
  find_by_name (VStr out) st = (Ok false, st).
Proof.
  unfold name_search_fails, find_by_name. intros H.
  unfold value_contains, bind, ret.
  destruct (contains (lit "BCC950") out); [|reflexivity].
  destruct (Re.search out); [discriminate | reflexivity].
Qed.

(** The first capable device of a list that has one. *)
Lemma first_capable devs dev : In dev devs -> pan_capable E dev = true ->
  exists pre d post,
    devs = pre ++ d :: post /\ none_capable E pre = true
    /\ pan_capable E d = true /\ In d devs.
Proof.
  induction devs as [|x devs IH]; intros Hin Hdev; [contradiction|].
  destruct (pan_capable E x) eqn:Hx.
  - exists [], x, devs. repeat split; auto. now left.
  - destruct Hin as [->|Hin]; [congruence|].
    destruct (IH Hin Hdev) as (pre & d & post & -> & Hpre & Hd & Hind).
    exists (x :: pre), d, post. repeat split; auto.
    + simpl. now rewrite Hx.
    + now right.
Qed.

(** C4: when the device listing is printed and the search by product
    name finds nothing in it, [find_camera] probes the devices in the order
    [glob] lists them and stops at the first whose control listing holds
    [pan_speed]: that device becomes the device path, the configuration
    file is rewritten with the four lines of the controller, the new
    device path in the first, and the result is [True].  In particular a
    device that is the only one with [pan_speed] is that first one wherever
    it stands in the list. *)
Theorem find_camera_by_probing st out dev :
  exec E list_devices_cmd = Some out ->
  name_search_fails out = true ->
  pan_capable E dev = true ->
  (forall pre post,
      glob_video E = pre ++ dev :: post -> none_capable E pre = true ->
      find_camera E st
      = (Ok true,
         mkState dev (pan_speed st) (tilt_speed st) (zoom_step st)
           (Some ((lit "DEVICE=" ++ dev ++ [LF])
                  ++ (lit "PAN_SPEED=" ++ str_of_int (pan_speed st) ++ [LF])
                  ++ (lit "TILT_SPEED=" ++ str_of_int (tilt_speed st) ++ [LF])
                  ++ (lit "ZOOM_STEP=" ++ str_of_int (zoom_step st) ++ [LF])))
           (trace st
            ++ Run (lit "v4l2-ctl --list-devices") true
               :: map (fun d => Run (lit "v4l2-ctl -d " ++ d
                                     ++ lit " --list-ctrls") true)
                      (pre ++ [dev]))))
  /\ (In dev (glob_video E) ->
      (forall d, In d (glob_video E) -> pan_capable E d = true -> d = dev) ->
      exists pre post,
        glob_video E = pre ++ dev :: post /\ none_capable E pre = true).
Proof.
  intros He Hname Hdev. split.
  - intros pre post Hl Hpre. unfold find_camera.
    erewrite bind_ok by (apply run_command_capture, He).
    erewrite bind_ok by (now apply find_by_name_fails).
    rewrite Hl, probe_first
      by (assumption || eapply glob_prefix_clean; eassumption).
    now rewrite selected_after.
  - intros Hin Honly.
    destruct (first_capable _ _ Hin Hdev)
      as (pre & d & post & Hl & Hpre & Hd & Hind).
    rewrite (Honly d Hind Hd) in Hl. eauto.
Qed.

End Discovery.

Lemma find_camera_by_probing_witness :
  find_camera three_devices (fresh None)
  = (Ok true,
     mkState (lit "/dev/video3") 1 1 10
       (Some (lit "DEVICE=/dev/video3" ++ [LF] ++ lit "PAN_SPEED=1" ++ [LF]
              ++ lit "TILT_SPEED=1" ++ [LF] ++ lit "ZOOM_STEP=10" ++ [LF]))
       [Run (lit "v4l2-ctl --list-devices") true;
        Run (lit "v4l2-ctl -d /dev/video0 --list-ctrls") true;
        Run (lit "v4l2-ctl -d /dev/video1 --list-ctrls") true;
        Run (lit "v4l2-ctl -d /dev/video3 --list-ctrls") true])
  /\ exists pre post,
       glob_video three_devices = pre ++ lit "/dev/video3" :: post
       /\ none_capable three_devices pre = true.
Proof.
  destruct (find_camera_by_probing three_devices (fresh None)
              (lit "HD Webcam (usb-0000:00:14.0-1):") (lit "/dev/video3")
              eq_refl eq_refl eq_refl) as [Hfirst Honly].
  split.
  - apply (Hfirst [lit "/dev/video0"; lit "/dev/video1"] [lit "/dev/video2"]);
      reflexivity.
  - apply Honly; [simpl; tauto|].
    intros d [<-|[<-|[<-|[<-|[]]]]]; vm_compute; congruence.
Defined.

(** The same run, written out. *)
Example find_camera_three_devices :
  find_camera three_devices (fresh None)
  = (Ok true,
     mkState (lit "/dev/video3") 1 1 10
       (Some (lit "DEVICE=/dev/video3" ++ [LF] ++ lit "PAN_SPEED=1" ++ [LF]
              ++ lit "TILT_SPEED=1" ++ [LF] ++ lit "ZOOM_STEP=10" ++ [LF]))
       [Run (lit "v4l2-ctl --list-devices") true;
        Run (lit "v4l2-ctl -d /dev/video0 --list-ctrls") true;
        Run (lit "v4l2-ctl -d /dev/video1 --list-ctrls") true;
        Run (lit "v4l2-ctl -d /dev/video3 --list-ctrls") true]).
Proof. reflexivity. Qed.

(** ** Operations that only log *)

Import PyMore Props.

Section FrameBasics.

Variable E : env.

Lemma after_nil st : after [] st = st.
Proof. destruct st. unfold after. simpl. now rewrite app_nil_r. Qed.

Lemma logs_only_ret {A} (a : A) : logs_only (ret a).
Proof. intros st. exists []. simpl. now rewrite after_nil. Qed.

Lemma logs_only_raise {A} e : logs_only (@raise A e).
Proof. intros st. exists []. simpl. now rewrite after_nil. Qed.

Lemma logs_only_get : logs_only get.
Proof. intros st. exists []. simpl. now rewrite after_nil. Qed.

Lemma logs_only_bind {A B} (m : M A) (k : A -> M B) :
  logs_only m -> (forall a, logs_only (k a)) -> logs_only (bind m k).
Proof.
  intros Hm Hk st. destruct (Hm st) as [e1 H1]. unfold bind.
  destruct (m st) as [[a|e] st1]; simpl in H1; subst st1.
  - destruct (Hk a (after e1 st)) as [e2 H2].
    exists (e1 ++ e2). now rewrite H2, after_after.
  - now exists e1.
Qed.

Lemma logs_only_sleep ms : logs_only (sleep ms).
Proof. intros st. now exists [Sleep ms]. Qed.

Lemma logs_only_run_command cmd cap : logs_only (run_command E cmd cap).
Proof.
  intros st. unfold run_command. destruct (mem NUL cmd).
  - exists []. simpl. now rewrite after_nil.
  - exists [Run cmd cap]. unfold bind, modify, ret.
    destruct (exec E cmd); reflexivity.
Qed.

Lemma logs_only_int_or_raise s : logs_only (int_or_raise s).
Proof.
  unfold int_or_raise. destruct (int s);
    [apply logs_only_ret | apply logs_only_raise].
Qed.

Lemma logs_only_value_contains sub v : logs_only (value_contains sub v).
Proof. destruct v; [apply logs_only_ret | apply logs_only_raise]. Qed.

Lemma logs_only_read_zoom v : logs_only (read_zoom v).
Proof.
  destruct v as [s|b]; unfold read_zoom; [|apply logs_only_raise].
  destruct (nth_error (split "="%char s) 1);
    [apply logs_only_int_or_raise | apply logs_only_raise].
Qed.

End FrameBasics.

Ltac frame_step :=
  lazymatch goal with
  | |- logs_only (bind _ _) => apply logs_only_bind; [|intros ?]
  | |- logs_only (ret _) => apply logs_only_ret
  | |- logs_only (raise _) => apply logs_only_raise
  | |- logs_only get => apply logs_only_get
  | |- logs_only (sleep _) => apply logs_only_sleep
  | |- logs_only (run_command _ _ _) => apply logs_only_run_command
  | |- logs_only (read_zoom _) => apply logs_only_read_zoom
  | |- logs_only (value_contains _ _) => apply logs_only_value_contains
  | |- logs_only (int_or_raise _) => apply logs_only_int_or_raise
  | |- logs_only (if ?b then _ else _) => destruct b
  | |- logs_only (match ?x with _ => _ end) => destruct x
  end.

Ltac frame := repeat frame_step.

Section Frame.

Variable E : env.
Variable H : host.

Lemma logs_only_write_ctrl name val : logs_only (write_ctrl E name val).
Proof. unfold write_ctrl. frame. Qed.

Lemma logs_only_pulse name val : logs_only (pulse E name val).
Proof. unfold pulse. frame. Qed.

Lemma logs_only_zoom_ramp zs ms : logs_only (zoom_ramp E zs ms).
Proof.
  induction zs as [|z zs IH]; cbn [zoom_ramp]; [apply logs_only_ret|].
  apply logs_only_bind; [apply logs_only_write_ctrl | intros _].
  apply logs_only_bind; [apply logs_only_sleep | intros _]. exact IH.
Qed.

Lemma logs_only_write_speed name prefix field :
  logs_only (write_speed E name prefix field).
Proof. unfold write_speed. frame. Qed.

Ltac frame_op :=
  lazymatch goal with
  | |- logs_only (write_ctrl _ _ _) => apply logs_only_write_ctrl
  | |- logs_only (write_speed _ _ _ _) => apply logs_only_write_speed
  | |- logs_only (zoom_ramp _ _ _) => apply logs_only_zoom_ramp
  | |- _ => frame_step
  end.

Lemma logs_only_reset_position : logs_only (reset_position E).
Proof. unfold reset_position. repeat frame_op. Qed.

Lemma logs_only_run_demo : logs_only (run_demo E H).
Proof.
  unfold run_demo.
  apply logs_only_bind; [apply logs_only_get | intros st].
  destruct (negb (path_exists H (device st))); [apply logs_only_ret|].
  repeat lazymatch goal with
         | |- logs_only (reset_position _) => apply logs_only_reset_position
         | |- _ => frame_op
         end.
Qed.

Lemma logs_only_os_release_id lines : logs_only (os_release_id lines).
Proof.
  induction lines as [|l ls IH]; cbn [os_release_id]; [apply logs_only_ret|].
  destruct (startswith (lit "ID=") l); [|exact IH]. frame.
Qed.

Lemma logs_only_detect_os : logs_only (detect_os H).
Proof.
  unfold detect_os. apply logs_only_bind.
  - destruct (os_release H); [apply logs_only_os_release_id | apply logs_only_ret].
  - intros [name|]; apply logs_only_ret.
Qed.

Lemma logs_only_test_camera : logs_only (test_camera E H).
Proof. unfold test_camera. frame. Qed.

(** X1: panning, tilting, zooming, the reset, the demonstration, the
    camera test, the two listings and the detection and installation steps
    of the set-up never change the device path, the speeds, the zoom step
    or the configuration file, whether they return or raise, and whatever
    the utility answers: all they do is add to the log. *)
Theorem operations_only_log :
  logs_only (pan_left E) /\ logs_only (pan_right E)
  /\ logs_only (tilt_up E) /\ logs_only (tilt_down E)
  /\ logs_only (zoom_in E) /\ logs_only (zoom_out E)
  /\ logs_only (reset_position E) /\ logs_only (run_demo E H)
  /\ logs_only (list_devices E) /\ logs_only (show_info E)
  /\ logs_only (test_camera E H)
  /\ logs_only (detect_os H) /\ logs_only (install_prerequisites E H).
Proof.
  repeat split;
    try apply logs_only_reset_position; try apply logs_only_run_demo;
    try apply logs_only_test_camera; try apply logs_only_detect_os.
  - unfold pan_left. apply logs_only_bind; [frame | intros; apply logs_only_pulse].
  - unfold pan_right. apply logs_only_bind; [frame | intros; apply logs_only_pulse].
  - unfold tilt_up. apply logs_only_bind; [frame | intros; apply logs_only_pulse].
  - unfold tilt_down. apply logs_only_bind; [frame | intros; apply logs_only_pulse].
  - unfold zoom_in. frame.
  - unfold zoom_out. frame.
  - unfold list_devices. frame.
  - unfold show_info. frame.
  - unfold install_prerequisites.
    apply logs_only_bind; [apply logs_only_detect_os | intros name].
    destruct (install_command name); frame.
Qed.


End Frame.

(** ** Pan and tilt *)

Section Motion.

Variable E : env.





End Motion.



(** ** The search by product name *)

Module ReFacts.
Import Py Re.

Lemma take_digits_all s : Forall (fun c => is_digit c = true) (take_digits s).
Proof.
  induction s as [|c s IH]; simpl; [constructor|].
  destruct (is_digit c) eqn:Hc; constructor; assumption.
Qed.

Lemma dev_video_here_shape s m : dev_video_here s = Some m ->
  exists ds, m = lit "/dev/video" ++ ds /\ ds <> []
             /\ Forall (fun c => is_digit c = true) ds.
Proof.
  unfold dev_video_here.
  destruct (startswith (lit "/dev/video") s); [|discriminate].
  destruct (take_digits (skipn (List.length (lit "/dev/video")) s))
    as [|d ds] eqn:Ht; [discriminate|].
  intros [= <-]. exists (d :: ds). repeat split; [discriminate|].
  rewrite <- Ht. apply take_digits_all.
Qed.

Lemma group1_eq skipped s :
  group1 skipped s
  = match dev_video_here s with
    | Some m => Some (rev skipped ++ m)
    | None => match s with
              | [] => None
              | c :: s' => group1 (c :: skipped) s'
              end
    end.
Proof. destruct s; reflexivity. Qed.

Lemma group1_shape s : forall skipped g, group1 skipped s = Some g ->
  exists pre ds, g = pre ++ lit "/dev/video" ++ ds /\ ds <> []
                 /\ Forall (fun c => is_digit c = true) ds.
Proof.
  induction s as [|c s IH]; intros skipped g; rewrite group1_eq;
    destruct (dev_video_here _) as [m|] eqn:Hm.
  - intros [= <-]. destruct (dev_video_here_shape _ _ Hm) as (ds & -> & Hds).
    now exists (rev skipped), ds.
  - discriminate.
  - intros [= <-]. destruct (dev_video_here_shape _ _ Hm) as (ds & -> & Hds).
    now exists (rev skipped), ds.
  - apply IH.
Qed.

Lemma after_marker_shape s : forall g, after_marker s = Some g ->
  exists pre ds, g = pre ++ lit "/dev/video" ++ ds /\ ds <> []
                 /\ Forall (fun c => is_digit c = true) ds.
Proof.
  induction s as [|c s IH]; intros g; [discriminate|].
  cbn [after_marker].
  destruct (ascii_dec c LF).
  - destruct (group1 [] s) as [g'|] eqn:Hg.
    + intros [= <-]. eapply group1_shape; eassumption.
    + apply IH.
  - apply IH.
Qed.

Lemma search_eq s :
  search s = match match_here s with
             | Some g => Some g
             | None => match s with
                       | [] => None
                       | _ :: s' => search s'
                       end
             end.
Proof. destruct s; reflexivity. Qed.

Lemma contains_eq sub s :
  contains sub s = if startswith sub s then true
                   else match s with
                        | [] => false
                        | _ :: s' => contains sub s'
                        end.
Proof. destruct s; reflexivity. Qed.

Lemma search_contains s : forall g, search s = Some g ->
  contains (lit "BCC950") s = true.
Proof.
  induction s as [|c s IH]; intros g; [discriminate|].
  rewrite search_eq, contains_eq. unfold match_here.
  destruct (startswith (lit "BCC950") (c :: s)); [reflexivity|]. apply IH.
Qed.

End ReFacts.

(** X4: whenever the pattern of [find_camera] matches a listing, the
    listing holds the product name (the test [in] before the search never
    decides anything by itself), and the text of group 1 ends with
    [/dev/video] followed by one or more digits. *)
Theorem name_pattern_match s g :
  Re.search s = Some g ->
  contains (lit "BCC950") s = true
  /\ exists pre ds,
       g = pre ++ lit "/dev/video" ++ ds /\ ds <> []
       /\ Forall (fun c => Re.is_digit c = true) ds.
Proof.
  intros Hg. split; [eapply ReFacts.search_contains; eassumption|].
  revert g Hg. induction s as [|c s IH]; intros g; [discriminate|].
  rewrite ReFacts.search_eq. unfold Re.match_here.
  destruct (startswith (lit "BCC950") (c :: s)); [|apply IH].
  destruct (Re.after_marker _) as [g'|] eqn:Ha; [|apply IH].
  intros [= <-]. eapply ReFacts.after_marker_shape; eassumption.
Qed.

Lemma name_pattern_match_witness :
  contains (lit "BCC950")
    (lit "BCC950 ConferenceCam" ++ [LF] ++ lit " /dev/video2" ++ [LF]) = true
  /\ exists pre ds,
       lit " /dev/video2" = pre ++ lit "/dev/video" ++ ds /\ ds <> []
       /\ Forall (fun c => Re.is_digit c = true) ds.
Proof.
  apply (name_pattern_match
           (lit "BCC950 ConferenceCam" ++ [LF] ++ lit " /dev/video2" ++ [LF])
           (lit " /dev/video2")).
  reflexivity.
Defined.

(** ** More on device discovery *)

Section DiscoveryMore.

Variable E : env.



Lemma probe_none devs : forall st,
  Forall (fun p => mem NUL p = false) devs ->
  none_capable E devs = true ->
  probe_devices E devs st = (Ok false, after (probes devs) st).
Proof.
  induction devs as [|d devs IH]; intros st Hc Hn.
  - simpl. unfold ret. now rewrite after_nil.
  - simpl in Hn. apply andb_true_iff in Hn. destruct Hn as [Hd Hn].
    apply negb_true_iff in Hd. inversion Hc as [|? ? Hcd Hcs]; subst.
    rewrite probe_head, Hd, IH by assumption. now rewrite after_after.
Qed.

(** X6: when the name search finds nothing and no listed device has a
    [pan_speed] control, [find_camera] probes every device [glob] lists,
    in order, and returns [False]; the device path, the speeds and the
    configuration file are left as they were. *)
Theorem find_camera_none_found st out :
  exec E list_devices_cmd = Some out ->
  name_search_fails out = true ->
  none_capable E (glob_video E) = true ->
  find_camera E st
  = (Ok false, after (Run list_devices_cmd true :: probes (glob_video E)) st).
Proof.
  intros He Hname Hnone. unfold find_camera.
  erewrite bind_ok by (apply run_command_capture, He).
  erewrite bind_ok by (now apply find_by_name_fails).
  cbv beta iota.
  rewrite probe_none by (assumption || apply NulFacts.glob_video_clean).
  now rewrite after_after.
Qed.

(** X7: when the command that lists the devices fails, [run_command]
    hands back [False] and the test [in] on it raises [TypeError]:
    [find_camera] ends with that exception before probing any device. *)
Theorem find_camera_listing_failed st :
  exec E list_devices_cmd = None ->
  find_camera E st = (Raise TypeError, after [Run list_devices_cmd true] st).
Proof.
  intros He. unfold find_camera.
  erewrite bind_ok by (apply run_command_failed; [exact He | reflexivity]).
  reflexivity.
Qed.



End DiscoveryMore.


Lemma find_camera_none_found_witness :
  find_camera SampleHosts.plain_webcams (fresh None)
  = (Ok false,
     after [Run (lit "v4l2-ctl --list-devices") true;
            Run (lit "v4l2-ctl -d /dev/video0 --list-ctrls") true;
            Run (lit "v4l2-ctl -d /dev/video1 --list-ctrls") true]
           (fresh None)).
Proof.
  apply (find_camera_none_found SampleHosts.plain_webcams (fresh None)
           (lit "brightness 0x00980900 (int) : min=0 max=255")); reflexivity.
Defined.

Lemma find_camera_listing_failed_witness :
  find_camera (mkEnv (fun _ => None) []) (fresh None)
  = (Raise TypeError, after [Run list_devices_cmd true] (fresh None)).
Proof.
  apply (find_camera_listing_failed (mkEnv (fun _ => None) []) (fresh None)).
  reflexivity.
Defined.


(** ** Set-up *)

Section SetupFacts.

Variable E : env.
Variable H : host.

Lemma split_nonempty c s : exists h t, split c s = h :: t.
Proof.
  induction s as [|x s (h & t & IH)]; simpl; [eauto|].
  destruct (ascii_dec x c); [eauto|]. rewrite IH. eauto.
Qed.

Lemma split_no_sep c s : mem c s = false -> split c s = [s].
Proof.
  induction s as [|x s IH]; intros Hm; [reflexivity|].
  apply ConfigFacts.mem_cons_false in Hm. destruct Hm as [Hx Hs].
  simpl. destruct (ascii_dec x c); [contradiction|]. now rewrite IH.
Qed.

Lemma startswith_id line : startswith (lit "ID=") line = true ->
  exists rest, line = lit "ID=" ++ rest.
Proof.
  change (lit "ID=") with ["I"%char; "D"%char; "="%char].
  destruct line as [|a line]; [discriminate|]. cbn [startswith].
  destruct (ascii_dec "I"%char a) as [<-|]; [|discriminate].
  destruct line as [|b line]; [discriminate|]. cbn [startswith].
  destruct (ascii_dec "D"%char b) as [<-|]; [|discriminate].
  destruct line as [|c line]; [discriminate|]. cbn [startswith].
  destruct (ascii_dec "="%char c) as [<-|]; [|discriminate].
  intros _. now exists line.
Qed.

Lemma split_id rest :
  nth_error (split "="%char (lit "ID=" ++ rest)) 1
  = Some (hd [] (split "="%char rest)).
Proof.
  change (lit "ID=" ++ rest) with ("I"%char :: "D"%char :: "="%char :: rest).
  destruct (split_nonempty "="%char rest) as (h & t & Hs).
  simpl. rewrite Hs. reflexivity.
Qed.

(** The loop over [/etc/os-release] raises nothing and touches nothing:
    a line that starts with [ID=] always has a second field. *)
Lemma os_release_id_pure lines :
  exists r, forall st, os_release_id lines st = (Ok r, st).
Proof.
  induction lines as [|l ls [r IH]]; cbn [os_release_id]; [now exists None|].
  destruct (startswith (lit "ID=") l) eqn:Hs; [|now exists r].
  destruct (startswith_id l Hs) as [rest ->]. rewrite split_id.
  eexists. intros st. reflexivity.
Qed.

Lemma no_id_line_cons l ls : no_id_line (l :: ls) = true ->
  startswith (lit "ID=") l = false /\ no_id_line ls = true.
Proof.
  unfold no_id_line. cbn [forallb]. intros Hn.
  apply andb_true_iff in Hn. destruct Hn as [Hl Hn].
  apply negb_true_iff in Hl. now split.
Qed.

Lemma os_release_id_none lines : no_id_line lines = true ->
  forall st, os_release_id lines st = (Ok None, st).
Proof.
  induction lines as [|l ls IH]; intros Hn st; [reflexivity|].
  apply no_id_line_cons in Hn. destruct Hn as [Hl Hn].
  cbn [os_release_id]. rewrite Hl. now apply IH.
Qed.

Lemma os_release_id_first pre line post st :
  no_id_line pre = true -> startswith (lit "ID=") line = true ->
  os_release_id (pre ++ line :: post) st
  = match nth_error (split "="%char line) 1 with
    | Some field => (Ok (Some (strip_quotes (strip field))), st)
    | None => (Raise IndexError, st)
    end.
Proof.
  induction pre as [|l ls IH]; intros Hn Hl.
  - simpl app. cbn [os_release_id]. rewrite Hl.
    destruct (nth_error (split "="%char line) 1); reflexivity.
  - apply no_id_line_cons in Hn. destruct Hn as [Hl' Hn].
    simpl app. cbn [os_release_id]. rewrite Hl'. now apply IH.
Qed.

Lemma detect_os_pure : exists name, forall st, detect_os H st = (Ok name, st).
Proof.
  unfold detect_os. destruct (os_release H) as [content|].
  - destruct (os_release_id_pure (read_lines content)) as [[name|] Hr].
    + exists name. intros st. unfold bind. now rewrite Hr.
    + exists (lower (platform_system H)). intros st. unfold bind.
      now rewrite Hr.
  - now exists (lower (platform_system H)).
Qed.

(** X9: [detect_os] never raises (the index [1] it takes of a split line
    always exists) and changes nothing.  Without [/etc/os-release], or when
    no line of it starts with [ID=], the name is the lower-cased
    [platform.system()]. *)
Theorem detect_os_total st :
  exists name,
    detect_os H st = (Ok name, st)
    /\ (os_release H = None
        \/ (exists content, os_release H = Some content
                            /\ no_id_line (read_lines content) = true) ->
        name = lower (platform_system H)).
Proof.
  destruct detect_os_pure as [name Hn].
  exists name. split; [apply Hn|].
  specialize (Hn st). unfold detect_os in Hn.
  intros [Hnone|(content & Hc & Hid)].
  - rewrite Hnone in Hn. unfold bind, ret in Hn. simpl in Hn. congruence.
  - rewrite Hc in Hn. unfold bind in Hn.
    rewrite os_release_id_none in Hn by assumption. simpl in Hn.
    unfold ret in Hn. congruence.
Qed.

Lemma split_cut c v rest : mem c v = false ->
  rest = [] \/ (exists r, rest = c :: r) ->
  hd [] (split c (v ++ rest)) = v.
Proof.
  intros Hv Hrest. induction v as [|x v IH].
  - destruct Hrest as [->|[r ->]]; [reflexivity|].
    simpl. destruct (ascii_dec c c); [reflexivity | congruence].
  - apply ConfigFacts.mem_cons_false in Hv. destruct Hv as [Hx Hv].
    specialize (IH Hv). simpl.
    destruct (ascii_dec x c); [contradiction|].
    destruct (split c (v ++ rest)) as [|h t]; simpl in *; congruence.
Qed.

(** X10: the name [detect_os] returns is read from the first line of
    [/etc/os-release] that starts with [ID=]: the text between [ID=] and
    the next [=] of that line, or the end of the line when it has no
    further [=], stripped of white space and then of double quotes.  Lines
    before it that do not start with [ID=] (such as [ID_LIKE=...]) and all
    lines after it play no part. *)
Theorem detect_os_first_id_line st content pre v rest post :
  os_release H = Some content ->
  read_lines content = pre ++ (lit "ID=" ++ v ++ rest) :: post ->
  no_id_line pre = true ->
  mem "="%char v = false ->
  rest = [] \/ (exists r, rest = "="%char :: r) ->
  detect_os H st = (Ok (strip_quotes (strip v)), st).
Proof.
  intros Hc Hl Hpre Hv Hrest. unfold detect_os. rewrite Hc, Hl. unfold bind.
  rewrite os_release_id_first by (assumption || reflexivity).
  rewrite split_id, split_cut by assumption. reflexivity.
Qed.



(** X12: [test_camera] returns [False] without running anything when the
    device path does not exist; otherwise it lists the controls once and
    returns whether the listing holds all of [pan_speed], [tilt_speed] and
    [zoom_absolute]; when that listing command fails it raises
    [TypeError]. *)
Theorem test_camera_outcome st :
  test_camera E H st
  = if path_exists H (device st) then
      match exec E (list_ctrls (device st)) with
      | Some out =>
          (Ok (contains (lit "pan_speed") out
               && contains (lit "tilt_speed") out
               && contains (lit "zoom_absolute") out),
           after [Run (list_ctrls (device st)) true] st)
      | None =>
          (Raise TypeError, after [Run (list_ctrls (device st)) true] st)
      end
    else (Ok false, st).
Proof.
  unfold test_camera.
  rewrite (bind_ok get _ st st st) by reflexivity.
  destruct (path_exists H (device st)) eqn:Hp; [|reflexivity].
  apply NulFacts.path_exists_no_nul in Hp.
  cbn [negb].
  destruct (exec E (list_ctrls (device st))) as [out|] eqn:He.
  - erewrite bind_ok by (apply run_command_capture, He). reflexivity.
  - erewrite bind_ok by (apply run_command_failed; [exact He | nonul]).
    reflexivity.
Qed.

Lemma install_unknown st name :
  detect_os H st = (Ok name, st) -> install_command name = None ->
  forall st', install_prerequisites E H st' = (Ok (VBool false), st').
Proof.
  intros Hd Hi st'. destruct detect_os_pure as [name' Hn].
  assert (name' = name) by (rewrite Hn in Hd; congruence). subst name'.
  unfold install_prerequisites. rewrite (bind_ok _ _ st' name st' (Hn st')).
  now rewrite Hi.
Qed.

(** X13: when [which v4l2-ctl] fails or prints nothing and the system is
    not one [install_prerequisites] knows, [setup] returns [False] after
    that one command: it installs nothing, does not look for the camera
    and does not write the configuration file. *)
Theorem setup_unknown_os st name :
  exec E which_cmd = None \/ exec E which_cmd = Some [] ->
  detect_os H st = (Ok name, st) ->
  install_command name = None ->
  setup E H st = (Ok false, after [Run which_cmd true] st).
Proof.
  intros Hw Hd Hi. unfold setup.
  assert (Hrun : exists v, run_command E which_cmd true st
                           = (Ok v, after [Run which_cmd true] st)
                           /\ truthy v = false).
  { destruct Hw as [Hw|Hw].
    - exists (VBool false).
      split; [now apply run_command_failed | reflexivity].
    - exists (VStr []). split; [now apply run_command_capture | reflexivity]. }
  destruct Hrun as (v & Hrun & Hv).
  erewrite bind_ok by exact Hrun. rewrite Hv. cbn [negb].
  erewrite bind_ok
    by (erewrite bind_ok by (eapply install_unknown; eassumption);
        reflexivity).
  reflexivity.
Qed.

(** X14: [setup] reports success although it found nothing: when
    [v4l2-ctl] is installed, the name search finds nothing, no listed
    device has a [pan_speed] control and the configured device path does
    not exist, [setup] still returns [True], and leaves the controller and
    the configuration file as they were. *)
Theorem setup_true_without_camera st c s out :
  exec E which_cmd = Some (c :: s) ->
  exec E list_devices_cmd = Some out ->
  name_search_fails out = true ->
  none_capable E (glob_video E) = true ->
  path_exists H (device st) = false ->
  setup E H st
  = (Ok true,
     after (Run which_cmd true :: Run list_devices_cmd true
            :: probes (glob_video E)) st).
Proof.
  intros Hw Hl Hname Hnone Hpath. unfold setup.
  erewrite bind_ok by (apply run_command_capture, Hw).
  cbn [truthy negb].
  erewrite bind_ok by reflexivity. cbv beta iota.
  erewrite bind_ok.
  2:{ unfold find_camera.
      erewrite bind_ok by (apply run_command_capture, Hl).
      erewrite bind_ok by (now apply find_by_name_fails).
      cbv beta iota.
      apply probe_none; [apply NulFacts.glob_video_clean | assumption]. }
  rewrite !after_after.
  erewrite bind_ok.
  2:{ unfold test_camera. erewrite bind_ok by reflexivity.
      cbn [device after]. rewrite Hpath. reflexivity. }
  reflexivity.
Qed.

(** X15: when [v4l2-ctl] is installed but the command that lists the
    devices fails, [setup] does not return: the [TypeError] of
    [find_camera] goes through it uncaught. *)
Theorem setup_listing_failed st c s :
  exec E which_cmd = Some (c :: s) ->
  exec E list_devices_cmd = None ->
  setup E H st
  = (Raise TypeError, after [Run which_cmd true; Run list_devices_cmd true] st).
Proof.
  intros Hw Hl. unfold setup.
  erewrite bind_ok by (apply run_command_capture, Hw).
  cbn [truthy negb].
  erewrite bind_ok by reflexivity. cbv beta iota.
  erewrite bind_raise
    by (unfold find_camera;
        erewrite bind_ok
          by (apply run_command_failed; [exact Hl | reflexivity]);
        reflexivity).
  now rewrite after_after.
Qed.

End SetupFacts.

(** ** The demonstration *)

Section Demo.

Variable E : env.
Variable H : host.

Lemma write_speed_run name prefix field st :
  mem NUL (device st) = false -> mem NUL name = false ->
  mem NUL prefix = false ->
  write_speed E name prefix field st
  = (Ok tt,
     after [Run (set_ctrl (device st) name (prefix ++ str_of_int (field st)))
                false] st).
Proof.
  intros Hdev Hname Hprefix. unfold write_speed.
  rewrite (bind_ok get _ st st st) by reflexivity.
  match goal with
  | |- bind (run_command E ?cmd false) _ ?s = _ =>
      destruct (run_command_write E cmd s ltac:(nonul)) as [b Hw]
  end.
  erewrite bind_ok by exact Hw. reflexivity.
Qed.

Lemma zoom_ramp_run zs ms : forall st,
  mem NUL (device st) = false ->
  zoom_ramp E zs ms st
  = (Ok tt, after (map (action_event (device st)) (ramp_actions zs ms)) st).
Proof.
  induction zs as [|z zs IH]; intros st Hdev.
  - simpl. unfold ret. now rewrite after_nil.
  - cbn [zoom_ramp].
    erewrite bind_ok by (apply write_ctrl_run; nonul).
    erewrite bind_ok by apply sleep_run.
    rewrite IH, !after_after by exact Hdev. reflexivity.
Qed.

Lemma reset_position_run st :
  mem NUL (device st) = false ->
  reset_position E st
  = (Ok tt, after (map (action_event (device st)) reset_actions) st).
Proof.
  intros Hdev. unfold reset_position.
  repeat (erewrite bind_ok
            by first [apply sleep_run | apply write_ctrl_run; nonul];
          rewrite ?after_after).
  rewrite write_ctrl_run, after_after by nonul. reflexivity.
Qed.

Lemma sleep_after ms evs st :
  sleep ms (after evs st) = (Ok tt, after (evs ++ [Sleep ms]) st).
Proof. now rewrite sleep_run, after_after. Qed.

Lemma write_ctrl_after name val evs st :
  mem NUL (device st) = false -> mem NUL name = false ->
  mem NUL val = false ->
  write_ctrl E name val (after evs st)
  = (Ok tt, after (evs ++ [Run (set_ctrl (device st) name val) false]) st).
Proof.
  intros Hdev Hname Hval. now rewrite write_ctrl_run, after_after by nonul.
Qed.

Lemma write_speed_after name prefix field evs st :
  mem NUL (device st) = false -> mem NUL name = false ->
  mem NUL prefix = false ->
  field (after evs st) = field st ->
  write_speed E name prefix field (after evs st)
  = (Ok tt,
     after (evs ++ [Run (set_ctrl (device st) name
                           (prefix ++ str_of_int (field st))) false]) st).
Proof.
  intros Hdev Hname Hprefix Hf.
  now rewrite write_speed_run, after_after, Hf by nonul.
Qed.

Lemma zoom_ramp_after zs ms evs st :
  mem NUL (device st) = false ->
  zoom_ramp E zs ms (after evs st)
  = (Ok tt,
     after (evs ++ map (action_event (device st)) (ramp_actions zs ms)) st).
Proof. intros Hdev. now rewrite zoom_ramp_run, after_after by nonul. Qed.

Lemma reset_position_after evs st :
  mem NUL (device st) = false ->
  reset_position E (after evs st)
  = (Ok tt, after (evs ++ map (action_event (device st)) reset_actions) st).
Proof. intros Hdev. now rewrite reset_position_run, after_after by nonul. Qed.

Ltac demo_step :=
  lazymatch goal with
  | |- bind (write_ctrl _ _ _) _ _ = _ =>
      erewrite bind_ok by (apply write_ctrl_after; nonul)
  | |- bind (write_speed _ _ _ _) _ _ = _ =>
      erewrite bind_ok by (apply write_speed_after; nonul)
  | |- bind (sleep _) _ _ = _ => erewrite bind_ok by apply sleep_after
  | |- bind (zoom_ramp _ _ _) _ _ = _ =>
      erewrite bind_ok by (apply zoom_ramp_after; nonul)
  | |- bind (reset_position _) _ _ = _ =>
      erewrite bind_ok by (apply reset_position_after; nonul)
  end.

Lemma run_demo_present st : path_exists H (device st) = true ->
  run_demo E H st
  = (Ok true,
     after (map (action_event (device st))
                (demo_actions (pan_speed st) (tilt_speed st))) st).
Proof.
  intros Hp. unfold run_demo.
  pose proof (NulFacts.path_exists_no_nul _ _ Hp) as Hdev.
  rewrite (bind_ok get _ st st st) by reflexivity.
  rewrite Hp. cbn [negb].
  erewrite bind_ok by apply sleep_run.
  repeat demo_step.
  unfold ret. reflexivity.
Qed.

(** X16: [run_demo] returns [False] without running anything when the
    device path does not exist.  Otherwise it returns [True] after the
    whole choreography, in the order of the script and ending with the
    reset: every write is made whether or not the ones before it
    succeeded, and nothing is raised. *)
Theorem run_demo_outcome st :
  run_demo E H st
  = if path_exists H (device st) then
      (Ok true,
       after (map (action_event (device st))
                  (demo_actions (pan_speed st) (tilt_speed st))) st)
    else (Ok false, st).
Proof.
  destruct (path_exists H (device st)) eqn:Hp.
  - now apply run_demo_present.
  - unfold run_demo. rewrite (bind_ok get _ st st st) by reflexivity.
    now rewrite Hp.
Qed.

End Demo.

Lemma ramp_write zs ms name val :
  In (Write name val) (ramp_actions zs ms) ->
  exists z, In z zs /\ val = str_of_int z.
Proof.
  unfold ramp_actions. intros Hin. apply in_flat_map in Hin.
  destruct Hin as (z & Hz & [Heq|[Heq|[]]]); [|discriminate].
  injection Heq as _ <-. eauto.
Qed.

Lemma demo_ranges :
  Forall (fun z => 100 <= z <= 500)
         (range 100 301 20 ++ range 300 99 (-20)
          ++ range 100 501 20 ++ range 500 99 (-20)).
Proof. vm_compute. repeat constructor; discriminate. Qed.

Lemma demo_writes p t name v :
  In (Write name v) (demo_actions p t) ->
  (name = lit "zoom_absolute"
   /\ exists z, v = str_of_int z /\ 100 <= z <= 500)
  \/ name = lit "pan_speed" \/ name = lit "tilt_speed".
Proof.
  intros Hin.
  assert (Hr : forall zs ms,
             In (Write name v) (ramp_actions zs ms) ->
             incl zs (range 100 301 20 ++ range 300 99 (-20)
                      ++ range 100 501 20 ++ range 500 99 (-20)) ->
             name = lit "zoom_absolute"
             /\ exists z, v = str_of_int z /\ 100 <= z <= 500).
  { intros zs ms Hw Hincl. unfold ramp_actions in Hw.
    apply in_flat_map in Hw.
    destruct Hw as (z & Hz & [Heq|[Heq|[]]]); [|discriminate].
    injection Heq as <- <-. split; [reflexivity|].
    exists z. split; [reflexivity|].
    pose proof demo_ranges as Hf. rewrite Forall_forall in Hf.
    apply Hf, Hincl, Hz. }
  unfold demo_actions, demo_body in Hin. cbv zeta in Hin.
  rewrite !in_app_iff in Hin.
  repeat match type of Hin with
         | _ \/ _ => destruct Hin as [Hin|Hin]
         end;
    lazymatch type of Hin with
    | In _ (ramp_actions _ _) =>
        left; apply Hr in Hin; [exact Hin|];
        intros z Hz; rewrite !in_app_iff; tauto
    | _ =>
        unfold reset_actions in Hin; cbn [In] in Hin;
        repeat match type of Hin with
               | _ \/ _ => destruct Hin as [Hin|Hin]
               end;
        try contradiction; try discriminate Hin;
        injection Hin as <- <-;
        first [ right; left; reflexivity
              | right; right; reflexivity
              | left; split; [reflexivity|];
                exists 100; split; [reflexivity | lia] ]
    end.
Qed.

Section DemoZoom.

Variable E : env.
Variable H : host.

(** X17: when the device path exists, every command of the form
    [v4l2-ctl -d <device> -c zoom_absolute=<value>] that [run_demo] runs
    carries as value the decimal text of a number in [100, 500], whatever
    the configured speeds and whatever the utility answers; both bounds
    are written; and [run_demo] runs 98 commands in all. *)
Theorem demo_zoom_in_bounds st :
  path_exists H (device st) = true ->
  exists evs,
    run_demo E H st = (Ok true, after evs st)
    /\ (forall value capture,
          In (Run (lit "v4l2-ctl -d " ++ device st
                   ++ lit " -c zoom_absolute=" ++ value) capture) evs ->
          exists z, value = str_of_int z /\ int value = Some z
                    /\ 100 <= z <= 500)
    /\ In (Run (lit "v4l2-ctl -d " ++ device st
                ++ lit " -c zoom_absolute=100") false) evs
    /\ In (Run (lit "v4l2-ctl -d " ++ device st
                ++ lit " -c zoom_absolute=500") false) evs
    /\ List.length (commands evs) = 98%nat.
Proof.
  intros Hp.
  exists (map (action_event (device st))
              (demo_actions (pan_speed st) (tilt_speed st))).
  split; [now apply run_demo_present|].
  split; [|split; [apply (nth_error_In _ 1); reflexivity|
                   split; [apply (nth_error_In _ 101); reflexivity
                          |reflexivity]]].
  intros value capture Hin. apply in_map_iff in Hin.
  destruct Hin as ([name v|ms] & Heq & Hin); [|discriminate].
  assert (Hcmd : set_ctrl (device st) name v
                 = lit "v4l2-ctl -d " ++ device st
                   ++ lit " -c zoom_absolute=" ++ value)
    by (cbn [action_event] in Heq; congruence).
  clear Heq. rename Hcmd into Heq. unfold set_ctrl in Heq.
  apply app_inv_head in Heq. apply app_inv_head in Heq.
  destruct (demo_writes _ _ _ _ Hin) as [[-> (z & -> & Hz)]|[->| ->]].
  - change (lit " -c " ++ lit "zoom_absolute" ++ lit "=" ++ str_of_int z)
      with (lit " -c zoom_absolute=" ++ str_of_int z) in Heq.
    apply app_inv_head in Heq. subst value.
    exists z. repeat split; try apply PyFacts.int_str_of_int; lia.
  - exfalso. unfold lit in Heq. simpl in Heq. discriminate Heq.
  - exfalso. unfold lit in Heq. simpl in Heq. discriminate Heq.
Qed.

End DemoZoom.

(** ** More on the configuration store *)

Module StoreFacts.
Import ConfigFacts LoadFacts SaveFacts PyFacts.

Lemma not_well_formed ls : well_formed ls = false ->
  existsb malformed ls = true.
Proof.
  induction ls as [|l ls IH]; [discriminate|].
  simpl. destruct (malformed l); [reflexivity|]. exact IH.
Qed.

Lemma state_eq st st' :
  device st = device st' -> pan_speed st = pan_speed st' ->
  tilt_speed st = tilt_speed st' -> zoom_step st = zoom_step st' ->
  config_file st = config_file st' -> trace st = trace st' -> st = st'.
Proof. destruct st, st'. simpl. intros; subst; reflexivity. Qed.

Lemma apply_lines_idem ls st : well_formed ls = true ->
  apply_lines ls (apply_lines ls st) = apply_lines ls st.
Proof.
  intros Hwf.
  pose proof (apply_lines_device ls st) as D1.
  pose proof (apply_lines_device ls (apply_lines ls st)) as D2.
  pose proof (apply_lines_pan_speed ls st Hwf) as P1.
  pose proof (apply_lines_pan_speed ls (apply_lines ls st) Hwf) as P2.
  pose proof (apply_lines_tilt_speed ls st Hwf) as T1.
  pose proof (apply_lines_tilt_speed ls (apply_lines ls st) Hwf) as T2.
  pose proof (apply_lines_zoom_step ls st Hwf) as Z1.
  pose proof (apply_lines_zoom_step ls (apply_lines ls st) Hwf) as Z2.
  destruct (apply_lines_frame ls (apply_lines ls st)) as [F T].
  unfold str_field, int_field in *.
  apply state_eq; try assumption.
  - destruct (last_value (lit "DEVICE") ls); congruence.
  - destruct (last_value (lit "PAN_SPEED") ls); congruence.
  - destruct (last_value (lit "TILT_SPEED") ls); congruence.
  - destruct (last_value (lit "ZOOM_STEP") ls); congruence.
Qed.

Lemma last_value_in key ls : forall l v,
  In l ls -> entry l = Some (key, v) -> last_value key ls <> None.
Proof.
  induction ls as [|x ls IH]; intros l v Hin He; [contradiction|].
  simpl. destruct (last_value key ls) eqn:Hl; [discriminate|].
  destruct Hin as [->|Hin].
  - rewrite He, str_eqb_refl. discriminate.
  - exfalso. exact (IH l v Hin He eq_refl).
Qed.

Lemma last_value_from key ls : forall v, last_value key ls = Some v ->
  exists l k, In l ls /\ entry l = Some (k, v).
Proof.
  induction ls as [|x ls IH]; intros v; [discriminate|].
  simpl. destruct (last_value key ls) as [w|] eqn:Hl.
  - intros [= <-]. destruct (IH w eq_refl) as (l & k & Hin & He).
    exists l, k. split; [now right | assumption].
  - destruct (entry x) as [[k w]|] eqn:He; [|discriminate].
    destruct (str_eqb k key); [|discriminate].
    intros [= <-]. exists x, k. split; [now left | assumption].
Qed.

Lemma unknown_keys_well_formed ls :
  (forall key, In key known_keys -> last_value key ls = None) ->
  well_formed ls = true.
Proof.
  intros Hk. unfold well_formed. apply forallb_forall. intros l Hin.
  apply negb_true_iff. unfold malformed.
  destruct (entry l) as [[k v]|] eqn:He; [|reflexivity].
  destruct (is_int_key k) eqn:Hi; [|reflexivity].
  exfalso. apply (last_value_in k ls l v Hin He). apply Hk.
  apply is_int_key_cases in Hi. destruct Hi as [_ [-> | [-> | ->]]];
    simpl; tauto.
Qed.

(** *** White space and line breaks in what a line yields *)

Lemma lstrip_suffix p s : exists a, s = a ++ lstrip_by p s.
Proof.
  induction s as [|c s [a IH]]; [now exists []|].
  simpl. destruct (p c); [|now exists []].
  exists (c :: a). simpl. now f_equal.
Qed.

Lemma lstrip_head_false p s c r : lstrip_by p s = c :: r -> p c = false.
Proof.
  induction s as [|x s IH]; [discriminate|].
  simpl. destruct (p x) eqn:Hx; [exact IH|]. now intros [= <- _].
Qed.

Lemma strip_piece p s : exists a b, s = a ++ strip_by p s ++ b.
Proof.
  unfold strip_by, rstrip_by.
  destruct (lstrip_suffix p s) as [a Ha].
  destruct (lstrip_suffix p (rev (lstrip_by p s))) as [b Hb].
  exists a, (rev b). rewrite <- rev_app_distr, <- Hb, rev_involutive.
  exact Ha.
Qed.

Lemma strip_no_trailing_space s : ends_in_space (strip s) = false.
Proof.
  unfold ends_in_space, strip, strip_by, rstrip_by. rewrite rev_involutive.
  destruct (lstrip_by isspace (rev (lstrip_by isspace s))) as [|c r] eqn:Hl;
    [reflexivity|].
  eapply lstrip_head_false. eassumption.
Qed.

Lemma mem_app_false c a b : mem c (a ++ b) = false ->
  mem c a = false /\ mem c b = false.
Proof. rewrite mem_app. apply orb_false_iff. Qed.

(** A line of a file has its line feed at its end, if it has one. *)
Lemma file_lines_shape s : forall l, In l (file_lines s) ->
  exists t, mem LF t = false /\ (l = t ++ [LF] \/ l = t).
Proof.
  induction s as [|c s IH]; intros l Hin; [contradiction|].
  simpl in Hin. destruct (ascii_dec c LF) as [->|Hc].
  - destruct Hin as [<-|Hin]; [|now apply IH].
    exists []. split; [reflexivity | now left].
  - destruct (file_lines s) as [|l0 ls] eqn:Hf.
    + destruct Hin as [<-|[]]. exists [c]. split; [|now right].
      now rewrite mem_cons_neq.
    + destruct Hin as [<-|Hin]; [|apply IH; now right].
      destruct (IH l0 (or_introl eq_refl)) as (t & Ht & Hl).
      exists (c :: t). split; [now rewrite mem_cons_neq|].
      destruct Hl as [->| ->]; [now left | now right].
Qed.

Lemma file_lines_mem c s : mem c s = false ->
  forall l, In l (file_lines s) -> mem c l = false.
Proof.
  induction s as [|x s IH]; intros Hm l Hin; [contradiction|].
  assert (Hx : mem c [x] = false /\ mem c s = false)
    by (apply (mem_app_false c [x] s); exact Hm).
  destruct Hx as [Hx Hs].
  simpl in Hin. destruct (ascii_dec x LF).
  - destruct Hin as [<-|Hin]; [assumption | now apply IH].
  - destruct (file_lines s) as [|l0 ls] eqn:Hf.
    + destruct Hin as [<-|[]]. assumption.
    + destruct Hin as [<-|Hin]; [|apply IH; [assumption | now right]].
      change (x :: l0) with ([x] ++ l0). rewrite mem_app, Hx.
      apply IH; [assumption | now left].
Qed.

Lemma universal_newlines_no_cr_len n : forall s,
  (List.length s <= n)%nat -> mem CR (universal_newlines s) = false.
Proof.
  induction n as [|n IH]; intros s Hlen.
  - destruct s; [reflexivity | simpl in Hlen; lia].
  - destruct s as [|c s]; [reflexivity|]. simpl in Hlen.
    cbn [universal_newlines]. destruct (ascii_dec c CR).
    + rewrite mem_cons_neq by discriminate.
      destruct s as [|c2 s2]; [reflexivity|].
      destruct (ascii_dec c2 LF); apply IH; simpl in *; lia.
    + rewrite mem_cons_neq by assumption. apply IH. lia.
Qed.

Lemma universal_newlines_no_cr s : mem CR (universal_newlines s) = false.
Proof. now apply (universal_newlines_no_cr_len (List.length s)). Qed.

Lemma partition_at_split c s a b : partition_at c s = Some (a, b) ->
  s = a ++ c :: b.
Proof.
  revert a. induction s as [|x s IH]; intros a; [discriminate|].
  simpl. destruct (ascii_dec x c) as [->|Hx].
  - now intros [= <- <-].
  - destruct (partition_at c s) as [[a' b']|]; [|discriminate].
    intros [= <- <-]. simpl. f_equal. now apply IH.
Qed.

Lemma ends_in_space_suffix a c b :
  ends_in_space (a ++ c :: b) = false -> isspace c = false ->
  ends_in_space b = false.
Proof.
  unfold ends_in_space. rewrite rev_app_distr. simpl rev.
  destruct (rev b) as [|d r]; [reflexivity|]. simpl. auto.
Qed.

(** What [load_config] reads from a line of a file never holds a line
    break and never ends in white space. *)
Lemma entry_value_clean content l k v :
  In l (read_lines content) -> entry l = Some (k, v) ->
  has_line_break v = false /\ ends_in_space v = false.
Proof.
  unfold read_lines. intros Hin He.
  pose proof (file_lines_mem CR _ (universal_newlines_no_cr content) l Hin)
    as Hcr.
  destruct (file_lines_shape _ l Hin) as (t & Ht & Hl).
  unfold entry in He. destruct (mem "="%char l); [|discriminate].
  unfold split_max1 in He.
  destruct (partition_at "="%char (strip l)) as [[a b]|] eqn:Hp;
    [|discriminate].
  injection He as <- <-. apply partition_at_split in Hp.
  pose proof (strip_no_trailing_space l) as Hend.
  destruct (strip_piece isspace l) as (x & y & Hxy). fold (strip l) in Hxy.
  remember (strip l) as sl eqn:Hsl. clear Hsl.
  assert (Hlf : mem LF sl = false).
  { destruct Hl as [Hl|Hl]; subst l.
    - destruct y as [|y0 yr].
      + (* nothing was stripped at the right *)
        rewrite app_nil_r in Hxy.
        destruct sl as [|s0 sr]; [reflexivity|]. exfalso.
        destruct (exists_last (l := s0 :: sr)) as (u & e & Hu);
          [discriminate|].
        rewrite Hu in Hxy, Hend. rewrite app_assoc in Hxy.
        apply app_inj_tail in Hxy. destruct Hxy as [_ <-].
        unfold ends_in_space in Hend. rewrite rev_app_distr in Hend.
        discriminate Hend.
      + destruct (exists_last (l := y0 :: yr)) as (y' & d & Hy);
          [discriminate|].
        rewrite Hy, !app_assoc in Hxy.
        apply app_inj_tail in Hxy. destruct Hxy as [Hxy _].
        rewrite Hxy, <- app_assoc in Ht.
        apply mem_app_false in Ht. destruct Ht as [_ Ht].
        apply mem_app_false in Ht. tauto.
    - rewrite Hxy in Ht.
      apply mem_app_false in Ht. destruct Ht as [_ Ht].
      apply mem_app_false in Ht. tauto. }
  assert (Hcr' : mem CR sl = false).
  { rewrite Hxy in Hcr.
    apply mem_app_false in Hcr. destruct Hcr as [_ Hcr].
    apply mem_app_false in Hcr. tauto. }
  subst sl. split.
  - unfold has_line_break. apply orb_false_iff. split.
    + apply mem_app_false in Hlf. destruct Hlf as [_ Hlf].
      now apply (mem_app_false LF ["="%char] b).
    + apply mem_app_false in Hcr'. destruct Hcr' as [_ Hcr'].
      now apply (mem_app_false CR ["="%char] b).
  - now apply ends_in_space_suffix in Hend.
Qed.

End StoreFacts.

(** X18: loading an existing configuration file either completes or
    raises [ValueError], nothing else: it completes exactly when no
    PAN_SPEED, TILT_SPEED or ZOOM_STEP line has a value [int()] rejects.
    The unpacking of the split line into key and value never fails. *)
Theorem load_config_outcome st content :
  config_file st = Some content ->
  exists st',
    load_config st
    = (if well_formed (read_lines content) then Ok tt else Raise ValueError,
       st').
Proof.
  intros Hf. rewrite (load_config_some _ _ Hf).
  destruct (well_formed (read_lines content)) eqn:Hwf.
  - eexists. now apply ConfigFacts.load_lines_ok.
  - apply StoreFacts.not_well_formed in Hwf.
    destruct (LoadFacts.first_malformed _ Hwf)
      as (pre & bad & post & -> & Hpre & Hbad).
    eexists. now apply ConfigFacts.load_lines_bad.
Qed.

(** X19: loading is idempotent: loading a well-formed file a second time
    leaves the controller as the first load left it. *)
Theorem load_config_idempotent st content :
  config_file st = Some content ->
  well_formed (read_lines content) = true ->
  bind load_config (fun _ => load_config) st = load_config st.
Proof.
  intros Hf Hwf.
  assert (H1 : load_config st = (Ok tt, apply_lines (read_lines content) st)).
  { rewrite (load_config_some _ _ Hf). now apply ConfigFacts.load_lines_ok. }
  rewrite (bind_ok _ _ _ _ _ H1), H1.
  destruct (LoadFacts.apply_lines_frame (read_lines content) st) as [Hc _].
  rewrite Hf in Hc.
  rewrite (load_config_some _ _ Hc), ConfigFacts.load_lines_ok by assumption.
  now rewrite StoreFacts.apply_lines_idem.
Qed.

(** X20: a file in which none of the keys DEVICE, PAN_SPEED, TILT_SPEED
    and ZOOM_STEP appears (lines without [=], other keys, keys with other
    spelling) is loaded without error and changes nothing. *)
Theorem load_config_unknown_keys st content :
  config_file st = Some content ->
  (forall key, In key known_keys ->
               last_value key (read_lines content) = None) ->
  load_config st = (Ok tt, st).
Proof.
  intros Hf Hk.
  pose proof (StoreFacts.unknown_keys_well_formed _ Hk) as Hwf.
  rewrite (load_config_some _ _ Hf), ConfigFacts.load_lines_ok by assumption.
  f_equal.
  pose proof (LoadFacts.apply_lines_device (read_lines content) st) as D.
  pose proof (LoadFacts.apply_lines_pan_speed (read_lines content) st Hwf) as P.
  pose proof (LoadFacts.apply_lines_tilt_speed (read_lines content) st Hwf) as T.
  pose proof (LoadFacts.apply_lines_zoom_step (read_lines content) st Hwf) as Z.
  destruct (LoadFacts.apply_lines_frame (read_lines content) st) as [F R].
  rewrite (Hk (lit "DEVICE")) in D by (simpl; tauto).
  rewrite (Hk (lit "PAN_SPEED")) in P by (simpl; tauto).
  rewrite (Hk (lit "TILT_SPEED")) in T by (simpl; tauto).
  rewrite (Hk (lit "ZOOM_STEP")) in Z by (simpl; tauto).
  now apply StoreFacts.state_eq.
Qed.

(** X21: whatever a completed load has put in the controller survives a
    save and a reload unchanged, provided the device path the controller
    had before the load had no line break and no trailing white space (as
    the built-in default has): a device path read from a file never has
    either. *)
Theorem loaded_config_roundtrip st0 st :
  has_line_break (device st0) = false ->
  ends_in_space (device st0) = false ->
  load_config st0 = (Ok tt, st) ->
  bind save_config (fun _ => load_config) st
  = (Ok tt, set_config_file (Some (config_text st)) st).
Proof.
  intros Hb He Hload.
  assert (Hclean : has_line_break (device st) = false
                   /\ ends_in_space (device st) = false).
  { destruct (config_file st0) as [content|] eqn:Hf.
    - rewrite (load_config_some _ _ Hf) in Hload.
      destruct (well_formed (read_lines content)) eqn:Hwf.
      2:{ apply StoreFacts.not_well_formed in Hwf.
          destruct (LoadFacts.first_malformed _ Hwf)
            as (pre & bad & post & Hl & Hpre & Hbad).
          rewrite Hl, ConfigFacts.load_lines_bad in Hload by assumption.
          discriminate Hload. }
      rewrite ConfigFacts.load_lines_ok in Hload by assumption.
      assert (st = apply_lines (read_lines content) st0) by congruence.
      subst st.
      pose proof (LoadFacts.apply_lines_device (read_lines content) st0) as D.
      unfold str_field in D.
      destruct (last_value (lit "DEVICE") (read_lines content)) as [v|] eqn:Hl.
      + rewrite D.
        destruct (StoreFacts.last_value_from _ _ _ Hl) as (l & k & Hin & Hent).
        eapply StoreFacts.entry_value_clean; eassumption.
      + rewrite D. now split.
    - rewrite (load_config_none _ Hf) in Hload.
      assert (st = st0) by congruence. subst st. now split. }
  destruct Hclean as [Hb' He'].
  destruct (SaveFacts.saved_lines_apply st
              (set_config_file (Some (config_text st)) st) He')
    as [Hwf Happ].
  unfold bind at 1. unfold save_config at 1. unfold bind, get, modify.
  erewrite load_config_some by reflexivity.
  rewrite SaveFacts.read_lines_config_text by assumption.
  rewrite ConfigFacts.load_lines_ok, Happ by assumption.
  reflexivity.
Qed.

(** ** The command line *)

Section MainFacts.

Variable E : env.
Variable H : host.

(** X22: without [--setup], [main] never changes the device path, the
    speeds, the zoom step or the configuration file that the construction
    of the controller has produced, whichever flags are given and whether
    the operation returns or raises: it only adds to the log. *)
Theorem main_without_setup_only_logs a file st0 :
  arg_setup a = false ->
  init (arg_device a) file [] = (Ok tt, st0) ->
  exists evs, snd (run_main E H a file) = after evs st0.
Proof.
  intros Hs Hi. unfold run_main, main. rewrite Hi, Hs.
  assert (Hpulse : forall (f : state -> Py.str) name,
             logs_only (bind get (fun st => pulse E name (f st))))
    by (intros; apply logs_only_bind;
        [apply logs_only_get | intros; apply logs_only_pulse]).
  assert (Hin : forall m : M unit,
             logs_only m -> exists evs, snd (m st0) = after evs st0)
    by (intros m Hm; apply Hm).
  destruct (arg_list a); [apply Hin; unfold list_devices; frame|].
  destruct (arg_pan_left a); [apply Hin, Hpulse|].
  destruct (arg_pan_right a); [apply Hin, Hpulse|].
  destruct (arg_tilt_up a); [apply Hin, Hpulse|].
  destruct (arg_tilt_down a); [apply Hin, Hpulse|].
  destruct (arg_zoom_in a); [apply Hin; unfold zoom_in; frame|].
  destruct (arg_zoom_out a); [apply Hin; unfold zoom_out; frame|].
  destruct (arg_reset a); [apply Hin, logs_only_reset_position|].
  destruct (arg_demo a).
  - apply Hin, logs_only_bind;
      [apply logs_only_run_demo | intros; apply logs_only_ret].
  - destruct (arg_info a); apply Hin;
      [unfold show_info; frame | apply logs_only_ret].
Qed.

(** X23: when the configuration file has a malformed integer value,
    [main] ends with [ValueError] for every command line, [--setup] and
    [--list] included, before any command is run; the file is left as it
    is. *)
Theorem main_malformed_config a content :
  existsb malformed (read_lines content) = true ->
  exists st',
    run_main E H a (Some content) = (Raise ValueError, st')
    /\ trace st' = [] /\ config_file st' = Some content.
Proof.
  intros Hbad.
  destruct (LoadFacts.first_malformed _ Hbad)
    as (pre & bad & post & Hl & Hpre & Hb).
  unfold run_main, main, init.
  erewrite load_config_some by reflexivity.
  rewrite Hl, ConfigFacts.load_lines_bad by assumption.
  eexists. split; [reflexivity|].
  destruct (LoadFacts.apply_lines_frame pre
              (mkState (device_or_default (arg_device a)) 1 1 10
                       (Some content) [])) as [-> ->].
  now split.
Qed.

End MainFacts.

(** ** Instances *)

Import SampleHosts.

Lemma detect_os_total_witness :
  detect_os mac_host (fresh None) = (Ok (lit "darwin"), fresh None).
Proof.
  destruct (detect_os_total mac_host (fresh None)) as (name & Hd & Hn).
  rewrite Hd, (Hn (or_introl eq_refl)). reflexivity.
Defined.

Lemma detect_os_first_id_line_witness :
  detect_os debian_host (fresh None) = (Ok (lit "debian"), fresh None).
Proof.
  apply (detect_os_first_id_line debian_host (fresh None) debian_release
           [lit "NAME=Debian" ++ [LF]; lit "ID_LIKE=ubuntu" ++ [LF]]
           ([quote] ++ lit "debian" ++ [quote])
           (lit "=12" ++ [LF])
           [lit "ID=other" ++ [LF]]);
    solve [reflexivity | right; eexists; reflexivity].
Defined.

Lemma setup_unknown_os_witness :
  setup (always []) mac_host (fresh None)
  = (Ok false, after [Run which_cmd true] (fresh None)).
Proof.
  apply (setup_unknown_os (always []) mac_host (fresh None) (lit "darwin"));
    solve [reflexivity | right; reflexivity].
Defined.

Lemma setup_true_without_camera_witness :
  setup (always (lit "brightness")) mac_host (fresh None)
  = (Ok true,
     after [Run which_cmd true; Run list_devices_cmd true] (fresh None)).
Proof.
  apply (setup_true_without_camera (always (lit "brightness")) mac_host
           (fresh None) "b"%char (lit "rightness") (lit "brightness"));
    reflexivity.
Defined.

Lemma setup_listing_failed_witness :
  setup failing_utility ubuntu_host (fresh None)
  = (Raise TypeError,
     after [Run which_cmd true; Run list_devices_cmd true] (fresh None)).
Proof.
  apply (setup_listing_failed failing_utility ubuntu_host (fresh None)
           "/"%char (lit "usr/bin/v4l2-ctl")); reflexivity.
Defined.

Lemma demo_zoom_in_bounds_witness :
  exists evs,
    run_demo (always []) ubuntu_host (fresh None)
    = (Ok true, after evs (fresh None))
    /\ (forall value capture,
          In (Run (lit "v4l2-ctl -d /dev/video0 -c zoom_absolute=" ++ value)
                  capture) evs ->
          exists z, value = str_of_int z /\ int value = Some z
                    /\ 100 <= z <= 500)
    /\ In (Run (lit "v4l2-ctl -d /dev/video0 -c zoom_absolute=100") false) evs
    /\ In (Run (lit "v4l2-ctl -d /dev/video0 -c zoom_absolute=500") false) evs
    /\ List.length (commands evs) = 98%nat.
Proof.
  apply (demo_zoom_in_bounds (always []) ubuntu_host (fresh None)).
  reflexivity.
Defined.

Lemma load_config_outcome_witness :
  exists st',
    load_config (fresh (Some half_good_file)) = (Raise ValueError, st').
Proof.
  apply (load_config_outcome (fresh (Some half_good_file)) half_good_file).
  reflexivity.
Defined.

Lemma load_config_idempotent_witness :
  bind load_config (fun _ => load_config) (fresh (Some partial_file))
  = load_config (fresh (Some partial_file)).
Proof.
  apply (load_config_idempotent (fresh (Some partial_file)) partial_file);
    reflexivity.
Defined.

Lemma load_config_unknown_keys_witness :
  load_config (fresh (Some other_keys_file))
  = (Ok tt, fresh (Some other_keys_file)).
Proof.
  apply (load_config_unknown_keys (fresh (Some other_keys_file))
           other_keys_file); [reflexivity|].
  intros key [<-|[<-|[<-|[<-|[]]]]]; reflexivity.
Defined.

Lemma loaded_config_roundtrip_witness :
  let st := snd (load_config (fresh (Some partial_file))) in
  bind save_config (fun _ => load_config) st
  = (Ok tt, set_config_file (Some (config_text st)) st).
Proof.
  apply (loaded_config_roundtrip (fresh (Some partial_file))
           (snd (load_config (fresh (Some partial_file)))));
    reflexivity.
Defined.

Lemma main_without_setup_only_logs_witness :
  exists evs,
    snd (run_main (always (lit "zoom_absolute=120")) mac_host
                  several_flags None)
    = after evs (fresh None).
Proof.
  apply (main_without_setup_only_logs (always (lit "zoom_absolute=120"))
           mac_host several_flags None (fresh None)); reflexivity.
Defined.

Lemma main_malformed_config_witness :
  exists st',
    run_main (always []) mac_host several_flags (Some half_good_file)
    = (Raise ValueError, st')
    /\ trace st' = [] /\ config_file st' = Some half_good_file.
Proof.
  apply (main_malformed_config (always []) mac_host several_flags
           half_good_file).
  reflexivity.
Defined.
